(** * Booking.com hotel dashboard: a shallow embedding of [booking.py]

  The script is a straight line of pandas / plotly / seaborn calls:
  load a CSV, clean the [price] and [rating] columns, filter by the
  sidebar controls, build eight charts.  Each library call the script
  makes is given here as an executable function over lists of rows, and
  the script itself as a sequence of assignments over an object store.

  Numbers are IEEE binary64 values ([spec_float] with the 53/1024
  format), strings are sequences of 8-bit code points. *)

From Stdlib Require Import ZArith Bool List Lia Ascii String.
From Stdlib Require Import Permutation Sorted.
From Stdlib Require Import Floats.SpecFloat.
Import ListNotations.

Local Open Scope string_scope.
Local Open Scope Z_scope.

(** ** Binary64 numbers, as numpy's [float64] *)

Module F64.

Definition prec : Z := 53.
Definition emax : Z := 1024.

Definition float : Type := spec_float.

Definition nan : float := S754_nan.
Definition inf : float := S754_infinity false.
Definition zero : float := S754_zero false.

Definition add : float -> float -> float := SFadd prec emax.
Definition mul : float -> float -> float := SFmul prec emax.
Definition div : float -> float -> float := SFdiv prec emax.
Definition opp : float -> float := SFopp.
Definition sub : float -> float -> float := SFsub prec emax.

(** The double nearest to [m * 2^e]; exact whenever [m] has at most 53
    bits, so [dyadic 17 (-1)] is 8.5 and [dyadic 1234 0] is 1234.0. *)
Definition dyadic (m e : Z) : float := binary_normalize prec emax m e false.
Definition of_Z (z : Z) : float := dyadic z 0.
Definition of_nat (n : nat) : float := of_Z (Z.of_nat n).

(** Python's comparison operators on floats: every comparison with a
    NaN is [False]. *)
Definition ltb (x y : float) : bool := SFltb x y.
Definition leb (x y : float) : bool := SFleb x y.
Definition geb (x y : float) : bool := SFleb y x.
Definition eqb (x y : float) : bool := SFeqb x y.

Definition is_nan (x : float) : bool :=
  match x with S754_nan => true | _ => false end.

Definition is_inf (x : float) : bool :=
  match x with S754_infinity _ => true | _ => false end.

Definition is_finite (x : float) : bool :=
  match x with
  | S754_zero _ | S754_finite _ _ _ => true
  | S754_infinity _ | S754_nan => false
  end.

(** Position of a value in the order: its class, then exponent and
    mantissa, mirrored for negative values. *)
Definition rank (x : float) : Z * (Z * Z) :=
  match x with
  | S754_nan => (0, (0, 0))
  | S754_zero _ => (0, (0, 0))
  | S754_infinity true => (-2, (0, 0))
  | S754_infinity false => (2, (0, 0))
  | S754_finite true m e => (-1, (- e, - Zpos m))
  | S754_finite false m e => (1, (e, Zpos m))
  end.

Definition lex_lt (a b : Z * (Z * Z)) : Prop :=
  fst a < fst b
  \/ (fst a = fst b
      /\ (fst (snd a) < fst (snd b)
          \/ (fst (snd a) = fst (snd b) /\ snd (snd a) < snd (snd b)))).

Definition lex_le (a b : Z * (Z * Z)) : Prop := lex_lt a b \/ a = b.

(** Not negative: the sign bit is clear (NaN counts as not negative). *)
Definition sign_clear (x : float) : bool :=
  match x with
  | S754_zero s | S754_infinity s | S754_finite s _ _ => negb s
  | S754_nan => true
  end.

End F64.

(** ** Python [str] methods used by the cleaner *)

Module Str.

Definition code (c : ascii) : nat := nat_of_ascii c.

(** [str.isspace] on one code point below 256. *)
Definition py_isspace (c : ascii) : bool :=
  let n := code c in
  (((9 <=? n) && (n <=? 13)) || ((28 <=? n) && (n <=? 32))
   || (n =? 133) || (n =? 160))%nat.

Definition is_empty (s : string) : bool :=
  match s with EmptyString => true | String _ _ => false end.

(** Whether [s] begins with [old]. *)
Fixpoint starts_with (old s : string) : bool :=
  match old, s with
  | EmptyString, _ => true
  | String a old', String b s' => Ascii.eqb a b && starts_with old' s'
  | String _ _, EmptyString => false
  end.

(** [s.replace(old, new)] for a non-empty [old]: occurrences are found
    left to right and do not overlap.  [skip] counts the characters of
    the occurrence just matched that are still to be dropped. *)
Fixpoint replace_from (old new : string) (skip : nat) (s : string) : string :=
  match s with
  | EmptyString => EmptyString
  | String c s' =>
      match skip with
      | S k => replace_from old new k s'
      | O =>
          if starts_with old s
          then new ++ replace_from old new (String.length old - 1) s'
          else String c (replace_from old new 0 s')
      end
  end.

Definition replace (old new s : string) : string := replace_from old new 0 s.

Fixpoint lstrip (s : string) : string :=
  match s with
  | String c s' => if py_isspace c then lstrip s' else s
  | EmptyString => EmptyString
  end.

Fixpoint rstrip (s : string) : string :=
  match s with
  | EmptyString => EmptyString
  | String c s' =>
      let r := rstrip s' in
      if is_empty r && py_isspace c then EmptyString else String c r
  end.

Definition strip (s : string) : string := rstrip (lstrip s).

(** A string with every occurrence of one character left out, and the
    test that a character does not occur. *)
Fixpoint without (x : ascii) (s : string) : string :=
  match s with
  | String c s' => if Ascii.eqb c x then without x s' else String c (without x s')
  | EmptyString => EmptyString
  end.

Fixpoint lacks (x : ascii) (s : string) : bool :=
  match s with
  | String c s' => negb (Ascii.eqb c x) && lacks x s'
  | EmptyString => true
  end.

End Str.

(** ** The regular expression of the rating column

    [(\d+\.\d+)] is a sequence of items, each a single character class
    or a greedy one-or-more repetition of a class.  [match_here] is the
    backtracking matcher of Python's [re] restricted to such sequences:
    a repetition first takes as many characters as it can and gives them
    back one at a time while the rest of the pattern fails. *)

Module Re.

Inductive item : Type :=
| One (p : ascii -> bool)
| Plus (p : ascii -> bool).

(** [\d] among the 256 code points of these strings: the digits 0-9. *)
Definition is_digit (c : ascii) : bool :=
  let n := nat_of_ascii c in ((48 <=? n) && (n <=? 57))%nat.

Definition is_dot (c : ascii) : bool := (nat_of_ascii c =? 46)%nat.

(** [\d+\.\d+]; the single capture group spans the whole pattern. *)
Definition rating_pattern : list item := [Plus is_digit; One is_dot; Plus is_digit].

Fixpoint match_here (re : list item) : string -> option string :=
  match re with
  | [] => fun _ => Some EmptyString
  | One p :: k =>
      fun s =>
        match s with
        | String c s' =>
            if p c then option_map (String c) (match_here k s') else None
        | EmptyString => None
        end
  | Plus p :: k =>
      fix more (s : string) : option string :=
        match s with
        | String c s' =>
            if p c then
              match more s' with
              | Some m => Some (String c m)
              | None => option_map (String c) (match_here k s')
              end
            else None
        | EmptyString => None
        end
  end.

(** [re.search]: the match at the leftmost position that has one. *)
Fixpoint search (re : list item) (s : string) : option string :=
  match match_here re s with
  | Some m => Some m
  | None =>
      match s with
      | String _ s' => search re s'
      | EmptyString => None
      end
  end.

(** *** The same extraction as a scanner

    The longest run of digits at the front of a string and what follows
    it; the decimal number at the front of a string, if there is one;
    and whether a string has a digit, a dot and a digit in a row
    anywhere. *)

Fixpoint span_digits (s : string) : string * string :=
  match s with
  | String c s' =>
      if is_digit c
      then let '(d, r) := span_digits s' in (String c d, r)
      else (EmptyString, s)
  | EmptyString => (EmptyString, EmptyString)
  end.

Definition decimal_at (s : string) : option string :=
  let '(d1, r) := span_digits s in
  match d1, r with
  | String _ _, String c r' =>
      if is_dot c then
        let '(d2, _) := span_digits r' in
        match d2 with
        | String _ _ => Some (d1 ++ String c d2)
        | EmptyString => None
        end
      else None
  | _, _ => None
  end.

Fixpoint all_digits (s : string) : bool :=
  match s with
  | String c s' => is_digit c && all_digits s'
  | EmptyString => true
  end.

Fixpoint digit_dot_digit (s : string) : bool :=
  match s with
  | String a s1 =>
      (is_digit a
       && match s1 with
          | String b (String c _) => is_dot b && is_digit c
          | _ => false
          end)
      || digit_dot_digit s1
  | EmptyString => false
  end.

(** A string without any decimal digit. *)
Fixpoint no_digit (s : string) : bool :=
  match s with
  | String c s' => negb (is_digit c) && no_digit s'
  | EmptyString => true
  end.

(** The first character of a string is a digit. *)
Definition starts_with_digit (s : string) : bool :=
  match s with
  | String c _ => is_digit c
  | EmptyString => false
  end.

End Re.

(** ** [pandas.to_numeric] on an object column

    For a string cell, [to_numeric] calls pandas' C helper [floatify]:
    [to_double] (which is [precise_xstrtod] and must consume the whole
    string) and, when that fails, the spellings of infinity.  The
    arithmetic on [number] is double arithmetic, as in the C code. *)

(** The parser is the one of pandas 2: at most 17 digits enter the
    value and a numeral too large for a double is an error.  Later
    versions round a numeral correctly and read one that is too large as
    an infinity; the properties proved below do not depend on which. *)

Module Num.

Import F64.

Definition isspace_ascii (c : ascii) : bool :=
  let n := nat_of_ascii c in ((n =? 32) || ((9 <=? n) && (n <=? 13)))%nat.

Definition isdigit_ascii (c : ascii) : bool := Re.is_digit c.

Definition digit_value (c : ascii) : Z := Z.of_nat (nat_of_ascii c) - 48.

Definition toupper_ascii (c : ascii) : ascii :=
  let n := nat_of_ascii c in
  if ((97 <=? n) && (n <=? 122))%nat then ascii_of_nat (n - 32) else c.

Definition max_digits : nat := 17.

(** The table [e[]] of the C code: the doubles [1e0 .. 1e308]. *)
Definition e10 (k : Z) : float := of_Z (10 ^ k).

Fixpoint skip_space (s : string) : string :=
  match s with
  | String c s' => if isspace_ascii c then skip_space s' else s
  | EmptyString => EmptyString
  end.

Definition push_digit (number : float) (c : ascii) : float :=
  add (mul number (of_Z 10)) (of_Z (digit_value c)).

(** Digits before the decimal point: the first 17 go into [number], each
    further one only bumps [exponent]. *)
Fixpoint integer_part (s : string) (number : float) (num_digits : nat)
  (exponent : Z) : float * nat * Z * string :=
  match s with
  | String c s' =>
      if isdigit_ascii c then
        if (num_digits <? max_digits)%nat
        then integer_part s' (push_digit number c) (S num_digits) exponent
        else integer_part s' number num_digits (exponent + 1)
      else (number, num_digits, exponent, s)
  | EmptyString => (number, num_digits, exponent, s)
  end.

(** Digits after the decimal point: kept while fewer than 17 digits have
    been read, consumed and ignored afterwards. *)
Fixpoint decimal_part (s : string) (number : float) (num_digits : nat)
  (num_decimals : Z) : float * nat * Z * string :=
  match s with
  | String c s' =>
      if isdigit_ascii c then
        if (num_digits <? max_digits)%nat
        then decimal_part s' (push_digit number c) (S num_digits) (num_decimals + 1)
        else decimal_part s' number num_digits num_decimals
      else (number, num_digits, num_decimals, s)
  | EmptyString => (number, num_digits, num_decimals, s)
  end.

(** Digits of the exponent: at most 17 are read. *)
Fixpoint exponent_digits (s : string) (n : Z) (num_digits : nat)
  : Z * nat * string :=
  match s with
  | String c s' =>
      if ((num_digits <? max_digits)%nat && isdigit_ascii c)%bool
      then exponent_digits s' (n * 10 + digit_value c) (S num_digits)
      else (n, num_digits, s)
  | EmptyString => (n, num_digits, s)
  end.

(** The optional [e<sign><digits>] suffix.  With no digit after it the
    scan steps back one character, so what is left is not empty. *)
Definition exponent_part (s : string) (exponent : Z) : Z * string :=
  match s with
  | String c s1 =>
      if Ascii.eqb (toupper_ascii c) "E" then
        let '(negative, signed, s2) :=
          match s1 with
          | String "-" r => (true, true, r)
          | String "+" r => (false, true, r)
          | _ => (false, false, s1)
          end in
        let '(n, nd, s3) := exponent_digits s2 0 0 in
        let exponent' := if negative then exponent - n else exponent + n in
        match nd with
        | O => (exponent', if signed then s1 else s)
        | S _ => (exponent', s3)
        end
      else (exponent, s)
  | EmptyString => (exponent, s)
  end.

(** Scaling by the power of ten; [None] is [ERANGE]. *)
Definition scale (number : float) (exponent : Z) : option float :=
  if 308 <? exponent then None
  else if 0 <? exponent then Some (mul number (e10 exponent))
  else if exponent <? -308 then
    if exponent <? -616 then Some zero
    else Some (div (div number (e10 (-308 - exponent))) (e10 308))
  else Some (div number (e10 (- exponent))).

(** [precise_xstrtod(str, &end, '.', 'E', '\0', 1, &error, ...)]: the
    value and the unread rest of the string, or [None] on [ERANGE]. *)
Definition precise_xstrtod (str : string) : option (float * string) :=
  let p0 := skip_space str in
  let '(negative, p1) :=
    match p0 with
    | String "-" r => (true, r)
    | String "+" r => (false, r)
    | _ => (false, p0)
    end in
  let '(number, num_digits, exponent, p2) := integer_part p1 zero 0 0 in
  let '(number, num_digits, exponent, p3) :=
    match p2 with
    | String "." r =>
        let '(number', nd', num_decimals, r') := decimal_part r number num_digits 0 in
        (number', nd', exponent - num_decimals, r')
    | _ => (number, num_digits, exponent, p2)
    end in
  match num_digits with
  | O => None
  | S _ =>
      let number := if negative then opp number else number in
      let '(exponent, p4) := exponent_part p3 exponent in
      match scale number exponent with
      | None => None
      | Some number =>
          if is_inf number then None
          else Some (number, skip_space p4)
      end
  end.

Definition to_double (item : string) : option float :=
  match precise_xstrtod item with
  | Some (v, EmptyString) => Some v
  | _ => None
  end.

Fixpoint lower (s : string) : string :=
  match s with
  | EmptyString => EmptyString
  | String c s' =>
      let n := nat_of_ascii c in
      String (if ((65 <=? n) && (n <=? 90))%nat then ascii_of_nat (n + 32) else c)
             (lower s')
  end.

(** [floatify]: [None] is the [ValueError] "Unable to parse string". *)
Definition floatify (s : string) : option float :=
  match to_double s with
  | Some v => Some v
  | None =>
      let l := lower s in
      if String.eqb l "inf" || String.eqb l "+inf"
         || String.eqb l "infinity" || String.eqb l "+infinity"
      then Some inf
      else if String.eqb l "-inf" || String.eqb l "-infinity"
      then Some (opp inf)
      else None
  end.

(** The six spellings of infinity [floatify] accepts, in any case. *)
Definition infinity_spelling (s : string) : bool :=
  let l := lower s in
  String.eqb l "inf" || String.eqb l "+inf"
  || String.eqb l "infinity" || String.eqb l "+infinity"
  || String.eqb l "-inf" || String.eqb l "-infinity".

End Num.

(** ** Tables

    A cell of an object column is a string or pandas' missing marker
    ([None]).  A row carries its index label and the four columns; the
    types of [price] and [rating] change from text to [float64] as the
    cleaner replaces the columns. *)

Definition cell : Type := option string.

Record row (P R : Type) : Type := mk_row {
  label : nat;
  name : cell;
  location : cell;
  price : P;
  rating : R
}.

Arguments mk_row {P R}.
Arguments label {P R}.
Arguments name {P R}.
Arguments location {P R}.
Arguments price {P R}.
Arguments rating {P R}.

(** The frame as [read_csv] returns it, and the cleaned frame. *)
Definition raw_hotel : Type := row cell cell.
Definition hotel : Type := row F64.float F64.float.

(** One line of the CSV file, already split into its four fields. *)
Record csv_row : Type := mk_csv {
  csv_name : string;
  csv_location : string;
  csv_price : string;
  csv_rating : string
}.

Module Pandas.

Import F64.

(** The texts [read_csv] reads as missing by default. *)
Definition STR_NA_VALUES : list string :=
  [""; "#N/A"; "#N/A N/A"; "#NA"; "-1.#IND"; "-1.#QNAN"; "-NaN"; "-nan";
   "1.#IND"; "1.#QNAN"; "<NA>"; "N/A"; "NA"; "NULL"; "NaN"; "None";
   "n/a"; "nan"; "null"].

Definition read_field (s : string) : cell :=
  if existsb (String.eqb s) STR_NA_VALUES then None else Some s.

Fixpoint read_rows (i : nat) (rows : list csv_row) : list raw_hotel :=
  match rows with
  | [] => []
  | r :: rs =>
      mk_row i (read_field (csv_name r)) (read_field (csv_location r))
               (read_field (csv_price r)) (read_field (csv_rating r))
      :: read_rows (S i) rs
  end.

(** [pd.read_csv]: index labels [0, 1, ...].  The four columns are taken
    to be object columns, as they are for a file with texts such as
    ["1,234 EGP"] and ["8.5 Excellent"]. *)
Definition read_csv (file : list csv_row) : list raw_hotel := read_rows 0 file.

(** The [.str] accessor maps a method over the strings of a column and
    leaves missing cells missing. *)
Definition str_map (f : string -> string) (c : cell) : cell := option_map f c.

(** [.str.extract(pat)[0]]: the first group of the first match, missing
    when there is none. *)
Definition str_extract (pat : list Re.item) (c : cell) : cell :=
  match c with
  | Some s => Re.search pat s
  | None => None
  end.

(** [pd.to_numeric(..., errors='coerce')] on one cell.  (A column whose
    every cell is an integer is kept as [int64] by pandas; its values are
    these doubles whenever they are below 2^53.) *)
Definition to_numeric_coerce (c : cell) : float :=
  match c with
  | None => nan
  | Some s =>
      match Num.floatify s with
      | Some v => v
      | None => nan
      end
  end.

Definition isna (x : float) : bool := is_nan x.

(** [df.dropna(subset=['price', 'rating'])]. *)
Definition dropna (df : list hotel) : list hotel :=
  filter (fun r => negb (isna (price r)) && negb (isna (rating r))) df.

(** [df[mask]]: the rows at which the boolean column is [True]. *)
Fixpoint getitem_mask {A : Type} (df : list A) (mask : list bool) : list A :=
  match df, mask with
  | r :: df', b :: mask' =>
      if b then r :: getitem_mask df' mask' else getitem_mask df' mask'
  | _, _ => []
  end.

Definition cell_eqb (a b : cell) : bool :=
  match a, b with
  | Some x, Some y => String.eqb x y
  | None, None => true
  | _, _ => false
  end.

(** [column.isin(values)] on one cell. *)
Definition isin (values : list cell) (c : cell) : bool :=
  existsb (cell_eqb c) values.

(** [column.unique()]: distinct values in order of first appearance. *)
Fixpoint unique (cs : list cell) : list cell :=
  match cs with
  | [] => []
  | c :: cs' => c :: filter (fun d => negb (cell_eqb c d)) (unique cs')
  end.

(** Total accumulated from [0.0] left to right, the order in which a
    chart adds up the values of one category. *)
Definition sum (xs : list float) : float := fold_left add xs zero.

(** *** numpy's sum of a [float64] column

    [np.add.reduce] adds pairwise: fewer than 8 values one after the
    other; up to 128 values in 8 interleaved accumulators that are then
    combined as a tree, the values left over after the last full block
    of 8 being added one by one; longer columns are cut in two at a
    multiple of 8 and the two sums added.  (The sign of a zero total is
    not modelled.) *)

Definition PW_BLOCKSIZE : nat := 128.

(** [r[j] += a[j]] for [j = 0 .. 7]. *)
Definition add8 (r a : list float) : list float :=
  map (fun xy => add (fst xy) (snd xy)) (combine r a).

Fixpoint add_blocks (k : nat) (r a : list float) : list float * list float :=
  match k with
  | O => (r, a)
  | S k' => add_blocks k' (add8 r (firstn 8 a)) (skipn 8 a)
  end.

(** [((r0 + r1) + (r2 + r3)) + ((r4 + r5) + (r6 + r7))]. *)
Definition fold8 (r : list float) : float :=
  let g i := nth i r zero in
  add (add (add (g 0%nat) (g 1%nat)) (add (g 2%nat) (g 3%nat)))
      (add (add (g 4%nat) (g 5%nat)) (add (g 6%nat) (g 7%nat))).

(** A column of 8 to 128 values. *)
Definition block_sum (a : list float) : float :=
  let '(r, rest) :=
    add_blocks (List.length a / 8 - 1) (firstn 8 a) (skipn 8 a) in
  fold_left add rest (fold8 r).

(** [fuel] bounds the depth of the halving; the length is enough. *)
Fixpoint pairwise_sum (fuel : nat) (a : list float) : float :=
  match fuel with
  | O => fold_left add a zero
  | S fuel' =>
      let n := List.length a in
      if (n <? 8)%nat then fold_left add a zero
      else if (n <=? PW_BLOCKSIZE)%nat then block_sum a
      else
        let n2 := (n / 2 - (n / 2) mod 8)%nat in
        add (pairwise_sum fuel' (firstn n2 a)) (pairwise_sum fuel' (skipn n2 a))
  end.

Definition np_sum (a : list float) : float := pairwise_sum (List.length a) a.

(** [column.mean()]: missing values count as [0.0] in the sum and are
    left out of the count; the mean of no value is the missing marker. *)
Definition mean (xs : list float) : float :=
  match List.length (filter (fun x => negb (isna x)) xs) with
  | O => nan
  | S k =>
      div (np_sum (map (fun x => if isna x then zero else x) xs))
          (of_nat (S k))
  end.

(** [column.max()], missing values skipped. *)
Definition max (xs : list float) : float :=
  fold_left (fun m x => if isna x then m
                        else if isna m then x
                        else if ltb m x then x else m) xs nan.

(** Stable insertion in an order given by [before a b], "[a] goes
    strictly before [b]". *)
Fixpoint insert_by {A : Type} (before : A -> A -> bool) (x : A) (l : list A)
  : list A :=
  match l with
  | [] => [x]
  | y :: l' =>
      if before y x then y :: insert_by before x l' else x :: y :: l'
  end.

Definition sort_by {A : Type} (before : A -> A -> bool) (l : list A) : list A :=
  fold_right (insert_by before) [] l.

(** [a] may stand immediately left of [b] in a sorted list: [b] does not
    go strictly before [a]. *)
Definition in_order {A : Type} (before : A -> A -> bool) (a b : A) : Prop :=
  before b a = false.

(** Descending order of a float key with missing keys last. *)
Definition desc_before {A : Type} (key : A -> float) (a b : A) : bool :=
  if isna (key a) then false
  else if isna (key b) then true
  else ltb (key b) (key a).

(** Ascending order of a float key with missing keys last. *)
Definition asc_before {A : Type} (key : A -> float) (a b : A) : bool :=
  if isna (key a) then false
  else if isna (key b) then true
  else ltb (key a) (key b).

(** [df.sort_values(by="rating", ascending=False)].  Rows of equal
    rating are kept in their input order here; pandas' default sort
    leaves that order open, and the properties proved below hold for
    any choice. *)
Definition sort_values_rating_desc (df : list hotel) : list hotel :=
  sort_by (desc_before rating) df.

(** Descending order of the ratings, and frames without missing rating. *)
Definition rating_ge (a b : hotel) : Prop := leb (rating b) (rating a) = true.

Definition no_nan_rating (df : list hotel) : Prop :=
  Forall (fun r => is_nan (rating r) = false) df.

(** [df.head(n)]. *)
Definition head {A : Type} (n : nat) (df : list A) : list A := firstn n df.

(** Sorted distinct group keys; rows with a missing key form no group. *)
Fixpoint insert_key (k : string) (ks : list string) : list string :=
  match ks with
  | [] => [k]
  | k' :: ks' =>
      match String.compare k k' with
      | Lt => k :: ks
      | Eq => ks
      | Gt => k' :: insert_key k ks'
      end
  end.

Fixpoint group_keys (cs : list cell) : list string :=
  match cs with
  | [] => []
  | Some k :: cs' => insert_key k (group_keys cs')
  | None :: cs' => group_keys cs'
  end.

(** The mean of one group: pandas adds the values of a group with a
    running compensation for the rounding error of each addition
    (Kahan's summation), in row order, and divides by their number;
    missing values are skipped. *)
Definition kahan_step (acc : float * float) (val : float) : float * float :=
  let sumx := fst acc in
  let compensation := snd acc in
  let y := sub val compensation in
  let t := add sumx y in
  let c := sub (sub t sumx) y in
  (t, if is_nan c then zero else c).

Definition kahan_sum (xs : list float) : float :=
  fst (fold_left kahan_step xs (zero, zero)).

Definition group_mean (xs : list float) : float :=
  let ys := filter (fun x => negb (isna x)) xs in
  match ys with
  | [] => nan
  | _ :: _ => div (kahan_sum ys) (of_nat (List.length ys))
  end.

(** [df.groupby("name")["price"].mean().reset_index()]: one row per
    name, in ascending order of the names, with the mean price of the
    rows of that name. *)
Definition groupby_name_mean_price (df : list hotel) : list (string * float) :=
  map (fun k =>
         (k, group_mean
               (map price (filter (fun r => cell_eqb (name r) (Some k)) df))))
      (group_keys (map name df)).

(** One step of [max]. *)
Definition max_step (m x : float) : float :=
  if isna x then m
  else if isna m then x
  else if ltb m x then x else m.


End Pandas.

(** ** Chart specifications

    What a plotting call receives: the kind of chart, its title and axis
    titles, one point per row of the frame it was given, and the layout
    settings the script changes afterwards. *)

Module Plot.

Import F64.

Inductive datum : Type :=
| Text (c : cell)
| Number (x : float).

Record point : Type := mk_point {
  pt_x : datum;
  pt_y : option datum;
  pt_text : option datum;
  pt_size : option float;
  pt_color : option cell;
  pt_hover : option cell
}.

Inductive chart_kind : Type := Bar | Histogram | Scatter | Line.

Inductive category_order : Type := Trace | TotalAscending.

Record figure : Type := mk_figure {
  kind : chart_kind;
  title : string;
  x_title : string;
  y_title : string;
  points : list point;
  nbins : option nat;
  xaxis_tickangle : option Z;
  xaxis_categoryorder : category_order;
  title_x : option float
}.

Definition set_tickangle (a : Z) (f : figure) : figure :=
  mk_figure (kind f) (title f) (x_title f) (y_title f) (points f) (nbins f)
            (Some a) (xaxis_categoryorder f) (title_x f).

Definition set_categoryorder (o : category_order) (f : figure) : figure :=
  mk_figure (kind f) (title f) (x_title f) (y_title f) (points f) (nbins f)
            (xaxis_tickangle f) o (title_x f).

Definition set_axis_titles (xt yt : string) (f : figure) : figure :=
  mk_figure (kind f) (title f) xt yt (points f) (nbins f)
            (xaxis_tickangle f) (xaxis_categoryorder f) (title_x f).

Definition set_title_x (x : float) (f : figure) : figure :=
  mk_figure (kind f) (title f) (x_title f) (y_title f) (points f) (nbins f)
            (xaxis_tickangle f) (xaxis_categoryorder f) (Some x).

(** [px.bar(df, x="name", y="rating", text=...)]. *)
Definition bar_name_rating (text_of : hotel -> datum) (ttl xt yt : string)
  (df : list hotel) : figure :=
  mk_figure Bar ttl xt yt
    (map (fun r => mk_point (Text (name r)) (Some (Number (rating r)))
                            (Some (text_of r)) None None None) df)
    None None Trace None.

(** [px.bar(avg_price_by_hotel, x="name", y="price", text="price")]. *)
Definition bar_name_price (ttl xt yt : string) (df : list (string * float))
  : figure :=
  mk_figure Bar ttl xt yt
    (map (fun '(k, p) => mk_point (Text (Some k)) (Some (Number p))
                                  (Some (Number p)) None None None) df)
    None None Trace None.

(** [px.histogram(df, x="price", nbins=10)]. *)
Definition histogram_price (n : nat) (ttl xt : string) (df : list hotel)
  : figure :=
  mk_figure Histogram ttl xt ""
    (map (fun r => mk_point (Number (price r)) None None None None None) df)
    (Some n) None Trace None.

(** [px.scatter(df, x="rating", y="price", size="price", color="name",
    hover_name="name")].  A marker size must not be negative: with a
    negative price in the frame the call raises [ValueError] ([None]). *)
Definition scatter_rating_price (ttl xt yt : string) (df : list hotel)
  : option figure :=
  if existsb (fun r => ltb (price r) zero) df then None
  else
    Some (mk_figure Scatter ttl xt yt
            (map (fun r => mk_point (Number (rating r)) (Some (Number (price r)))
                                    None (Some (price r)) (Some (name r))
                                    (Some (name r))) df)
            None None Trace None).

(** [sns.lineplot(data=df, x='name', y=...)] with the title, the axis
    labels and the tick rotation set on the axes afterwards.  The rows
    that share a name are drawn as one point, at the mean of their
    values; the points go in ascending order of the names.  (The shaded
    band around the line comes from random resampling and is not
    modelled.) *)
Definition lineplot_name (y_of : hotel -> float) (ttl xt yt : string)
  (df : list hotel) : figure :=
  mk_figure Line ttl xt yt
    (map (fun k =>
            mk_point (Text (Some k))
              (Some (Number
                       (Pandas.mean
                          (map y_of
                             (filter (fun r => Pandas.cell_eqb (name r) (Some k))
                                     df)))))
              None None None None)
         (Pandas.group_keys (map name df)))
    None (Some 45) Trace None.

(** *** The order of the bars along a category axis

    With the default order the categories appear as the data lists them.
    With ['total ascending'] the axis is sorted by the total of the [y]
    values of each category, smallest first. *)

Definition x_cell (p : point) : cell :=
  match pt_x p with Text c => c | Number _ => None end.

Definition y_value (p : point) : float :=
  match pt_y p with Some (Number v) => v | _ => nan end.

Definition category_total (f : figure) (c : cell) : float :=
  Pandas.sum (map y_value (filter (fun p => Pandas.cell_eqb (x_cell p) c) (points f))).

Definition trace_categories (f : figure) : list cell :=
  Pandas.unique (map x_cell (points f)).

Definition displayed_categories (f : figure) : list cell :=
  match xaxis_categoryorder f with
  | Trace => trace_categories f
  | TotalAscending =>
      Pandas.sort_by (Pandas.asc_before (category_total f)) (trace_categories f)
  end.

(** Bars laid out from the largest total to the smallest, and from the
    smallest to the largest. *)
Definition bars_descending (f : figure) : Prop :=
  Sorted (fun a b => leb (category_total f b) (category_total f a) = true)
         (displayed_categories f).

Definition bars_ascending (f : figure) : Prop :=
  Sorted (fun a b => ltb (category_total f b) (category_total f a) = false)
         (displayed_categories f).

End Plot.

(** ** The script: cleaning, filtering, the derived frames and figures *)

Module Booking.

Import F64.

(** Lines 17-20: [.str.replace('EGP', '').str.replace(',', '').str.strip()]
    and [to_numeric(errors='coerce')], on one cell of the price column. *)
Definition clean_price (c : cell) : float :=
  Pandas.to_numeric_coerce
    (Pandas.str_map Str.strip
       (Pandas.str_map (Str.replace "," "")
          (Pandas.str_map (Str.replace "EGP" "") c))).

(** Lines 23-26, on one cell of the rating column. *)
Definition clean_rating (c : cell) : float :=
  Pandas.to_numeric_coerce (Pandas.str_extract Re.rating_pattern c).

(** [df['price'] = ...] and [df['rating'] = ...]: the column is replaced,
    the other columns and the index are kept. *)
Definition assign_price {P P' R : Type} (f : P -> P') (r : row P R) : row P' R :=
  mk_row (label r) (name r) (location r) (f (price r)) (rating r).

Definition assign_rating {P R R' : Type} (f : R -> R') (r : row P R) : row P R' :=
  mk_row (label r) (name r) (location r) (price r) (f (rating r)).

(** Lines 14-29: the cleaned base table. *)
Definition hotels_df (file : list csv_row) : list hotel :=
  Pandas.dropna
    (map (assign_rating clean_rating)
       (map (assign_price clean_price) (Pandas.read_csv file))).

(** Row [i] of the file after lines 14-26, before [dropna]. *)
Definition clean_row (i : nat) (r : csv_row) : hotel :=
  mk_row i (Pandas.read_field (csv_name r)) (Pandas.read_field (csv_location r))
         (clean_price (Pandas.read_field (csv_price r)))
         (clean_rating (Pandas.read_field (csv_rating r))).

(** Whether line [i] of the file has a row in the cleaned table. *)
Definition kept (file : list csv_row) (i : nat) : bool :=
  existsb (Nat.eqb i) (map label (hotels_df file)).

(** The values of the three sidebar widgets. *)
Record controls : Type := mk_controls {
  min_price : float;
  max_price : float;
  min_rating : float;
  max_rating : float;
  selected_locations : list cell
}.

(** Lines 57-61: the conjunction of the five boolean columns, at one row. *)
Definition keep (c : controls) (r : hotel) : bool :=
  geb (price r) (min_price c) && leb (price r) (max_price c)
  && geb (rating r) (min_rating c) && leb (rating r) (max_rating c)
  && Pandas.isin (selected_locations c) (location r).

(** Lines 56-62. *)
Definition filtered_df (c : controls) (df : list hotel) : list hotel :=
  Pandas.getitem_mask df (map (keep c) df).

(** Line 70. *)
Definition top_rated (fdf : list hotel) : list hotel :=
  Pandas.head 10 (Pandas.sort_values_rating_desc fdf).

(** Line 109. *)
Definition avg_price_by_hotel (fdf : list hotel) : list (string * float) :=
  Pandas.groupby_name_mean_price fdf.

(** Line 123. *)
Definition budget_hotels (fdf : list hotel) : list hotel :=
  Pandas.getitem_mask fdf
    (map (fun r => ltb (price r) (Pandas.mean (map price fdf))) fdf).

(** Line 124. *)
Definition top_budget_rated (fdf : list hotel) : list hotel :=
  Pandas.head 10 (Pandas.sort_values_rating_desc (budget_hotels fdf)).

Definition rating_text (r : hotel) : Plot.datum := Plot.Number (rating r).
Definition name_text (r : hotel) : Plot.datum := Plot.Text (name r).

(** Lines 71-79. *)
Definition fig_top_rated (fdf : list hotel) : Plot.figure :=
  Plot.set_tickangle (-45)
    (Plot.bar_name_rating rating_text "Top-Rated Hotels" "Hotel Name" "Rating"
       (top_rated fdf)).

(** Lines 84-90. *)
Definition fig_price_dist (fdf : list hotel) : Plot.figure :=
  Plot.histogram_price 10 "Price Distribution of Hotels" "Price (EGP)" fdf.

(** Lines 95-104. *)
Definition fig_rating_vs_price (fdf : list hotel) : option Plot.figure :=
  Plot.scatter_rating_price "Rating vs. Price Analysis" "Hotel Rating"
    "Price (EGP)" fdf.

(** Lines 110-118. *)
Definition fig_avg_price (fdf : list hotel) : Plot.figure :=
  Plot.set_tickangle (-45)
    (Plot.bar_name_price "Average Price by Hotel" "Hotel Name"
       "Average Price (EGP)" (avg_price_by_hotel fdf)).

(** Lines 125-133. *)
Definition fig_budget_rated (fdf : list hotel) : Plot.figure :=
  Plot.set_tickangle (-45)
    (Plot.bar_name_rating rating_text "Top-Rated Budget Hotels" "Hotel Name"
       "Rating" (top_budget_rated fdf)).

(** Lines 138-143. *)
Definition fig1 (fdf : list hotel) : Plot.figure :=
  Plot.lineplot_name rating "Top Hotels Positive Reviews" "Hotel Name" "Rating" fdf.

(** Lines 148-153. *)
Definition fig2 (fdf : list hotel) : Plot.figure :=
  Plot.lineplot_name price "Price vs. Value" "Hotel Name" "Price (EGP)" fdf.

(** Lines 158-165: the figure as [px.bar] returns it. *)
Definition fig_price_data (fdf : list hotel) : Plot.figure :=
  Plot.bar_name_rating name_text "Hotel Ratings in Hurghada" "Hotel Name"
    "Rating (Score)" (Pandas.sort_values_rating_desc fdf).

(** Lines 167-173: [update_layout] on that figure. *)
Definition fig_price_layout (f : Plot.figure) : Plot.figure :=
  Plot.set_title_x (dyadic 1 (-1))
    (Plot.set_axis_titles "Hotel Name" "Rating (Score)"
       (Plot.set_tickangle (-45)
          (Plot.set_categoryorder Plot.TotalAscending f))).

Definition fig_price (fdf : list hotel) : Plot.figure :=
  fig_price_layout (fig_price_data fdf).

(** Lines 35-53: the values of the widgets before the user touches them,
    as the script writes them ([sidebar_defaults] below says when the
    slider accepts them).  [x or 0] replaces a zero by [0] and keeps any
    other float. *)
Definition or_zero (x : float) : float :=
  match x with S754_zero _ => zero | _ => x end.

Definition default_controls (df : list hotel) : controls :=
  mk_controls zero (or_zero (Pandas.max (map price df)))
              zero (of_Z 10)
              (Pandas.unique (map location df)).



(** The text of a price cell after the three [.str] calls of line 18. *)
Definition price_text (s : string) : string :=
  Str.strip (Str.replace "," "" (Str.replace "EGP" "" s)).

(** The rows the default widget values let through. *)
Definition default_view (r : hotel) : bool :=
  leb zero (price r) && leb (rating r) (of_Z 10).

(** Both tests of two settings of the widgets at once. *)
Definition keep_both (c1 c2 : controls) (r : hotel) : bool :=
  keep c1 r && keep c2 r.

(** [c'] is at least as wide as [c]: lower minima, higher maxima, more
    locations. *)
Definition wider (c c' : controls) : Prop :=
  leb (min_price c') (min_price c) = true
  /\ leb (max_price c) (max_price c') = true
  /\ leb (min_rating c') (min_rating c) = true
  /\ leb (max_rating c) (max_rating c') = true
  /\ incl (selected_locations c) (selected_locations c').

(** The two-hotel table of the specification's scenario, with every
    widget at its default. *)
Definition scenario_file : list csv_row :=
  [mk_csv "A" "Cairo" "1,000 EGP" "7.0 Good";
   mk_csv "B" "Giza" "500 EGP" "9.0 Great"].

Definition scenario_controls : controls :=
  default_controls (hotels_df scenario_file).


(** The price slider narrowed to [0, 600]: only hotel B is that cheap. *)
Definition mid_controls : controls :=
  mk_controls zero (of_Z 600) zero (of_Z 10) [Some "Cairo"; Some "Giza"].

(** Lines 35-53 when [st.slider] can be built as written: the highest
    price is a finite number above zero.  ([None]: streamlit refuses or
    adjusts the range, which is not modelled.) *)
Definition sidebar_defaults (df : list hotel) : option controls :=
  let m := Pandas.max (map price df) in
  if is_finite m && ltb zero m then Some (default_controls df) else None.




(** A file whose only price spells infinity. *)
Definition infinite_price_file : list csv_row :=
  [mk_csv "D" "Giza" "inf EGP" "9.5 Superb"].

End Booking.

(** ** The script as a program over an object store

    Frames and figures are Python objects: a variable holds a reference,
    a call that builds a frame or a figure allocates a fresh object, and
    [update_layout] changes a figure in place.  A statement that raises
    stops the run; the store is then as the statements before it left
    it. *)

Module Script.

Inductive object : Type :=
| Frame (df : list hotel)
| Means (df : list (string * F64.float))
| Fig (f : Plot.figure).

Record state : Type := mk_state {
  heap : list object;
  globals : list (string * nat)
}.

Inductive outcome (A : Type) : Type :=
| Returned (a : A)
| Raised (exn : string).

Arguments Returned {A}.
Arguments Raised {A}.

(** A statement returns a value or raises, and leaves a store. *)
Definition M (A : Type) : Type := state -> outcome A * state.

Definition ret {A : Type} (a : A) : M A := fun s => (Returned a, s).

Definition bind {A B : Type} (m : M A) (k : A -> M B) : M B :=
  fun s => match m s with
           | (Returned a, s') => k a s'
           | (Raised e, s') => (Raised e, s')
           end.

Definition raise {A : Type} (e : string) : M A := fun s => (Raised e, s).

Notation "x <- m ;; k" := (bind m (fun x => k))
  (at level 61, m at next level, right associativity).
Notation "m ;;; k" := (bind m (fun _ => k))
  (at level 61, right associativity).

Fixpoint lookup (x : string) (g : list (string * nat)) : option nat :=
  match g with
  | [] => None
  | (y, l) :: g' => if String.eqb x y then Some l else lookup x g'
  end.

(** A new object at the next free address. *)
Definition alloc (o : object) : M nat :=
  fun s => (Returned (List.length (heap s)),
            mk_state (heap s ++ [o]) (globals s)).

Definition deref (l : nat) : M object :=
  fun s => match nth_error (heap s) l with
           | Some o => (Returned o, s)
           | None => (Raised "ReferenceError", s)
           end.

Fixpoint set_nth (l : nat) (o : object) (h : list object) : list object :=
  match h, l with
  | [], _ => []
  | _ :: h', O => o :: h'
  | o' :: h', S l' => o' :: set_nth l' o h'
  end.

(** In-place change of the object at [l]. *)
Definition store (l : nat) (o : object) : M unit :=
  fun s => (Returned tt, mk_state (set_nth l o (heap s)) (globals s)).

Definition getvar (x : string) : M nat :=
  fun s => match lookup x (globals s) with
           | Some l => (Returned l, s)
           | None => (Raised "NameError", s)
           end.

Definition setvar (x : string) (l : nat) : M unit :=
  fun s => (Returned tt, mk_state (heap s) ((x, l) :: globals s)).

Definition frame_of (x : string) : M (list hotel) :=
  l <- getvar x ;; o <- deref l ;;
  match o with Frame df => ret df | _ => raise "TypeError" end.

Definition means_of (x : string) : M (list (string * F64.float)) :=
  l <- getvar x ;; o <- deref l ;;
  match o with Means df => ret df | _ => raise "TypeError" end.

(** [x = <new object>]. *)
Definition assign (x : string) (o : object) : M unit :=
  l <- alloc o ;; setvar x l.

(** [x = <plotting call>], where the call may raise. *)
Definition assign_plot (x : string) (f : option Plot.figure) : M unit :=
  match f with
  | Some g => assign x (Fig g)
  | None => raise "ValueError"
  end.

(** [x.update_layout(...)]. *)
Definition update_layout (x : string) (g : Plot.figure -> Plot.figure) : M unit :=
  l <- getvar x ;; o <- deref l ;;
  match o with Fig f => store l (Fig (g f)) | _ => raise "TypeError" end.

Import Booking.

(** Lines 56-62. *)
Definition apply_filters (c : controls) : M unit :=
  base <- frame_of "hotels_df" ;;
  assign "filtered_df" (Frame (Pandas.getitem_mask base (map (keep c) base))).

(** Lines 68-91. *)
Definition first_charts : M unit :=
  fdf <- frame_of "filtered_df" ;;
  assign "top_rated"
    (Frame (Pandas.head 10 (Pandas.sort_values_rating_desc fdf))) ;;;
  t <- frame_of "top_rated" ;;
  assign "fig_top_rated"
    (Fig (Plot.bar_name_rating rating_text "Top-Rated Hotels" "Hotel Name"
            "Rating" t)) ;;;
  update_layout "fig_top_rated" (Plot.set_tickangle (-45)) ;;;
  fdf <- frame_of "filtered_df" ;;
  assign "fig_price_dist"
    (Fig (Plot.histogram_price 10 "Price Distribution of Hotels" "Price (EGP)"
            fdf)).

(** Lines 93-105. *)
Definition scatter_chart : M unit :=
  fdf <- frame_of "filtered_df" ;;
  assign_plot "fig_rating_vs_price"
    (Plot.scatter_rating_price "Rating vs. Price Analysis" "Hotel Rating"
       "Price (EGP)" fdf).

(** Lines 107-174. *)
Definition last_charts : M unit :=
  fdf <- frame_of "filtered_df" ;;
  assign "avg_price_by_hotel" (Means (Pandas.groupby_name_mean_price fdf)) ;;;
  a <- means_of "avg_price_by_hotel" ;;
  assign "fig_avg_price"
    (Fig (Plot.bar_name_price "Average Price by Hotel" "Hotel Name"
            "Average Price (EGP)" a)) ;;;
  update_layout "fig_avg_price" (Plot.set_tickangle (-45)) ;;;
  fdf <- frame_of "filtered_df" ;;
  assign "budget_hotels"
    (Frame (Pandas.getitem_mask fdf
              (map (fun r => F64.ltb (price r) (Pandas.mean (map price fdf)))
                   fdf))) ;;;
  b <- frame_of "budget_hotels" ;;
  assign "top_budget_rated"
    (Frame (Pandas.head 10 (Pandas.sort_values_rating_desc b))) ;;;
  tb <- frame_of "top_budget_rated" ;;
  assign "fig_budget_rated"
    (Fig (Plot.bar_name_rating rating_text "Top-Rated Budget Hotels"
            "Hotel Name" "Rating" tb)) ;;;
  update_layout "fig_budget_rated" (Plot.set_tickangle (-45)) ;;;
  fdf <- frame_of "filtered_df" ;;
  assign "fig1"
    (Fig (Plot.lineplot_name rating "Top Hotels Positive Reviews" "Hotel Name"
            "Rating" fdf)) ;;;
  fdf <- frame_of "filtered_df" ;;
  assign "fig2"
    (Fig (Plot.lineplot_name price "Price vs. Value" "Hotel Name"
            "Price (EGP)" fdf)) ;;;
  fdf <- frame_of "filtered_df" ;;
  assign "fig_price"
    (Fig (Plot.bar_name_rating name_text "Hotel Ratings in Hurghada"
            "Hotel Name" "Rating (Score)"
            (Pandas.sort_values_rating_desc fdf))) ;;;
  update_layout "fig_price" fig_price_layout.

(** Lines 68-174. *)
Definition build_charts : M unit :=
  first_charts ;;; scatter_chart ;;; last_charts.

(** Lines 56-174, run once per interaction with the widgets at [c]. *)
Definition interaction (c : controls) : M unit :=
  apply_filters c ;;; build_charts.

(** The state in which line 56 is reached: the cleaned base table is the
    only object, bound to [hotels_df]. *)
Definition start (base : list hotel) : state :=
  mk_state [Frame base] [("hotels_df", 0%nat)].

Definition startup (file : list csv_row) : state := start (hotels_df file).

(** The state after line 62, after line 91, and after line 174 when the
    scatter plot [f] was built. *)
Definition filtered_state (c : controls) (base : list hotel) : state :=
  mk_state [Frame base; Frame (filtered_df c base)]
           [("filtered_df", 1%nat); ("hotels_df", 0%nat)].

Definition histogram_state (c : controls) (base : list hotel) : state :=
  let fdf := filtered_df c base in
  mk_state
    [Frame base; Frame fdf; Frame (top_rated fdf); Fig (fig_top_rated fdf);
     Fig (fig_price_dist fdf)]
    [("fig_price_dist", 4%nat); ("fig_top_rated", 3%nat);
     ("top_rated", 2%nat); ("filtered_df", 1%nat); ("hotels_df", 0%nat)].

Definition final_state (c : controls) (base : list hotel) (f : Plot.figure)
  : state :=
  let fdf := filtered_df c base in
  mk_state
    [Frame base; Frame fdf; Frame (top_rated fdf); Fig (fig_top_rated fdf);
     Fig (fig_price_dist fdf); Fig f;
     Means (avg_price_by_hotel fdf); Fig (fig_avg_price fdf);
     Frame (budget_hotels fdf); Frame (top_budget_rated fdf);
     Fig (fig_budget_rated fdf); Fig (fig1 fdf); Fig (fig2 fdf);
     Fig (fig_price fdf)]
    [("fig_price", 13%nat); ("fig2", 12%nat); ("fig1", 11%nat);
     ("fig_budget_rated", 10%nat); ("top_budget_rated", 9%nat);
     ("budget_hotels", 8%nat); ("fig_avg_price", 7%nat);
     ("avg_price_by_hotel", 6%nat); ("fig_rating_vs_price", 5%nat);
     ("fig_price_dist", 4%nat); ("fig_top_rated", 3%nat);
     ("top_rated", 2%nat); ("filtered_df", 1%nat); ("hotels_df", 0%nat)].

(** The outcome and the store of one interaction. *)
Definition after_interaction (c : controls) (base : list hotel)
  : outcome unit * state :=
  match fig_rating_vs_price (filtered_df c base) with
  | Some f => (Returned tt, final_state c base f)
  | None => (Raised "ValueError", histogram_state c base)
  end.

(** The object a variable refers to. *)
Definition value_of (x : string) (s : state) : option object :=
  match lookup x (globals s) with
  | Some l => nth_error (heap s) l
  | None => None
  end.

End Script.

(** * Properties *)

(** ** The order on binary64 values *)

Module F64Facts.

Import F64.

(** A comparison that holds has no NaN operand. *)
Lemma leb_not_nan (x y : float) :
  leb x y = true -> is_nan x = false /\ is_nan y = false.
Proof.
  unfold leb, SFleb. destruct x, y; simpl; intros H; try discriminate; auto.
Qed.

Lemma ltb_not_nan (x y : float) :
  ltb x y = true -> is_nan x = false /\ is_nan y = false.
Proof.
  unfold ltb, SFltb. destruct x, y; simpl; intros H; try discriminate; auto.
Qed.

Lemma compare_rank (x y : float) :
  is_nan x = false -> is_nan y = false ->
  exists c, SFcompare x y = Some c /\
    match c with
    | Lt => lex_lt (rank x) (rank y)
    | Eq => rank x = rank y
    | Gt => lex_lt (rank y) (rank x)
    end.
Proof.
  intros Hx Hy.
  destruct x as [sx|sx| |sx mx ex], y as [sy|sy| |sy my ey];
    try discriminate; simpl;
    try (destruct sx); try (destruct sy);
    try (eexists; split; [reflexivity|]; unfold lex_lt; simpl; auto; lia).
  - (* negative, negative *)
    change (Pos.compare_cont Eq mx my) with (Pos.compare mx my).
    destruct (Z.compare_spec ex ey) as [E|E|E].
    + destruct (Pos.compare_spec mx my) as [E'|E'|E']; simpl;
        eexists; (split; [reflexivity|]); unfold lex_lt; simpl.
      * subst. reflexivity.
      * right. split; [reflexivity|]. right. split; lia.
      * right. split; [reflexivity|]. right. split; lia.
    + eexists; split; [reflexivity|]. unfold lex_lt; simpl.
      right. split; [reflexivity|]. left. lia.
    + eexists; split; [reflexivity|]. unfold lex_lt; simpl.
      right. split; [reflexivity|]. left. lia.
  - (* positive, positive *)
    change (Pos.compare_cont Eq mx my) with (Pos.compare mx my).
    destruct (Z.compare_spec ex ey) as [E|E|E].
    + destruct (Pos.compare_spec mx my) as [E'|E'|E']; simpl;
        eexists; (split; [reflexivity|]); unfold lex_lt; simpl.
      * subst. reflexivity.
      * right. split; [reflexivity|]. right. split; lia.
      * right. split; [reflexivity|]. right. split; lia.
    + eexists; split; [reflexivity|]. unfold lex_lt; simpl.
      right. split; [reflexivity|]. left. lia.
    + eexists; split; [reflexivity|]. unfold lex_lt; simpl.
      right. split; [reflexivity|]. left. lia.
Qed.

Lemma lex_lt_irrefl (a : Z * (Z * Z)) : ~ lex_lt a a.
Proof. unfold lex_lt. lia. Qed.

Lemma lex_lt_asym (a b : Z * (Z * Z)) : lex_lt a b -> ~ lex_lt b a.
Proof. unfold lex_lt. lia. Qed.

Lemma lex_lt_trans (a b c : Z * (Z * Z)) : lex_lt a b -> lex_lt b c -> lex_lt a c.
Proof. unfold lex_lt. lia. Qed.

Lemma leb_rank (x y : float) :
  is_nan x = false -> is_nan y = false ->
  (leb x y = true <-> lex_le (rank x) (rank y)).
Proof.
  intros Hx Hy. destruct (compare_rank x y Hx Hy) as [c [Hc Hr]].
  unfold leb, SFleb, lex_le. rewrite Hc.
  destruct c; split; intros H; auto; try discriminate.
  - destruct H as [H|H].
    + exfalso. exact (lex_lt_asym _ _ H Hr).
    + rewrite H in Hr. exfalso. exact (lex_lt_irrefl _ Hr).
Qed.

Lemma ltb_rank (x y : float) :
  is_nan x = false -> is_nan y = false ->
  (ltb x y = true <-> lex_lt (rank x) (rank y)).
Proof.
  intros Hx Hy. destruct (compare_rank x y Hx Hy) as [c [Hc Hr]].
  unfold ltb, SFltb. rewrite Hc.
  destruct c; split; intros H; auto; try discriminate.
  - rewrite Hr in H. exfalso. exact (lex_lt_irrefl _ H).
  - exfalso. exact (lex_lt_asym _ _ H Hr).
Qed.

Lemma leb_trans (x y z : float) :
  leb x y = true -> leb y z = true -> leb x z = true.
Proof.
  intros H1 H2.
  destruct (leb_not_nan _ _ H1) as [Hx Hy].
  destruct (leb_not_nan _ _ H2) as [_ Hz].
  apply leb_rank in H1; auto. apply leb_rank in H2; auto.
  apply leb_rank; auto.
  unfold lex_le in *.
  destruct H1 as [H1|H1], H2 as [H2|H2].
  - left. eapply lex_lt_trans; eauto.
  - left. rewrite <- H2. exact H1.
  - left. rewrite H1. exact H2.
  - right. congruence.
Qed.

Lemma ltb_asym (x y : float) : ltb x y = true -> ltb y x = false.
Proof.
  intros H. destruct (ltb_not_nan _ _ H) as [Hx Hy].
  destruct (ltb y x) eqn:E; auto.
  apply ltb_rank in H; auto. apply ltb_rank in E; auto.
  exfalso. exact (lex_lt_asym _ _ H E).
Qed.

(** Among non-NaN values, "not below" is "at least". *)
Lemma not_ltb_leb (x y : float) :
  is_nan x = false -> is_nan y = false -> ltb x y = false -> leb y x = true.
Proof.
  intros Hx Hy H.
  destruct (compare_rank x y Hx Hy) as [c [Hc Hr]].
  apply leb_rank; auto. unfold lex_le.
  unfold ltb, SFltb in H. rewrite Hc in H.
  destruct c; try discriminate; auto.
Qed.

Lemma leb_not_ltb (x y : float) : leb y x = true -> ltb x y = false.
Proof.
  intros H. destruct (leb_not_nan _ _ H) as [Hy Hx].
  destruct (ltb x y) eqn:E; auto.
  apply leb_rank in H; auto. apply ltb_rank in E; auto.
  destruct H as [H|H].
  - exfalso. exact (lex_lt_asym _ _ H E).
  - rewrite H in E. exfalso. exact (lex_lt_irrefl _ E).
Qed.

End F64Facts.

(** ** Boolean indexing, sorting and [head] *)

Module PandasFacts.

Import F64 Pandas.

Lemma getitem_mask_filter {A : Type} (p : A -> bool) (df : list A) :
  getitem_mask df (map p df) = filter p df.
Proof.
  induction df as [|r df IH]; simpl; [reflexivity|].
  rewrite IH. reflexivity.
Qed.

Lemma filter_length_le {A : Type} (p : A -> bool) (l : list A) :
  (List.length (filter p l) <= List.length l)%nat.
Proof.
  induction l as [|a l IH]; simpl; [lia|].
  destruct (p a); simpl; lia.
Qed.

Lemma filter_twice {A : Type} (p : A -> bool) (l : list A) :
  filter p (filter p l) = filter p l.
Proof.
  induction l as [|a l IH]; simpl; [reflexivity|].
  destruct (p a) eqn:E; simpl; [rewrite E, IH|]; auto.
Qed.

Lemma cell_eqb_eq (a b : cell) : cell_eqb a b = true <-> a = b.
Proof.
  destruct a as [x|], b as [y|]; simpl; split; intros H;
    try discriminate; auto.
  - apply String.eqb_eq in H. congruence.
  - inversion H. apply String.eqb_refl.
Qed.

Lemma isin_In (values : list cell) (c : cell) :
  isin values c = true <-> In c values.
Proof.
  unfold isin. rewrite existsb_exists. split.
  - intros [x [Hx E]]. apply cell_eqb_eq in E. subst. exact Hx.
  - intros H. exists c. split; [exact H|]. apply cell_eqb_eq. reflexivity.
Qed.

Section InsertionSort.

Context {A : Type}.
Variable before : A -> A -> bool.
Hypothesis before_asym : forall a b, before a b = true -> before b a = false.

Lemma insert_by_perm (x : A) (l : list A) :
  Permutation (insert_by before x l) (x :: l).
Proof.
  induction l as [|y l IH]; simpl; [apply Permutation_refl|].
  destruct (before y x).
  - eapply perm_trans; [apply perm_skip, IH|]. apply perm_swap.
  - apply Permutation_refl.
Qed.

Lemma sort_by_perm (l : list A) : Permutation (sort_by before l) l.
Proof.
  unfold sort_by. induction l as [|x l IH]; simpl; [constructor|].
  eapply perm_trans; [apply insert_by_perm|]. apply perm_skip, IH.
Qed.

Lemma insert_by_sorted (x : A) (l : list A) :
  Sorted (in_order before) l -> Sorted (in_order before) (insert_by before x l).
Proof.
  induction 1 as [|y l Hs IH Hhd]; simpl.
  - repeat constructor.
  - destruct (before y x) eqn:E.
    + constructor; [exact IH|].
      destruct Hhd as [|z l' Hyz]; simpl.
      * constructor. unfold in_order. apply before_asym. exact E.
      * destruct (before z x); constructor; auto.
        unfold in_order. apply before_asym. exact E.
    + constructor; [constructor; assumption|].
      constructor. exact E.
Qed.

Lemma sort_by_sorted (l : list A) : Sorted (in_order before) (sort_by before l).
Proof.
  unfold sort_by. induction l as [|x l IH]; simpl; [constructor|].
  apply insert_by_sorted, IH.
Qed.

End InsertionSort.

Lemma desc_before_asym {A : Type} (key : A -> float) (a b : A) :
  desc_before key a b = true -> desc_before key b a = false.
Proof.
  unfold desc_before, isna.
  destruct (is_nan (key a)) eqn:Ha, (is_nan (key b)) eqn:Hb; auto.
  apply F64Facts.ltb_asym.
Qed.

Lemma asc_before_asym {A : Type} (key : A -> float) (a b : A) :
  asc_before key a b = true -> asc_before key b a = false.
Proof.
  unfold asc_before, isna.
  destruct (is_nan (key a)) eqn:Ha, (is_nan (key b)) eqn:Hb; auto.
  apply F64Facts.ltb_asym.
Qed.

Lemma rating_ge_trans (a b c : hotel) :
  rating_ge a b -> rating_ge b c -> rating_ge a c.
Proof. unfold rating_ge. intros H1 H2. eapply F64Facts.leb_trans; eauto. Qed.

Lemma sort_values_perm (df : list hotel) :
  Permutation (sort_values_rating_desc df) df.
Proof. apply sort_by_perm. Qed.

Lemma sort_values_sorted (df : list hotel) :
  no_nan_rating df -> StronglySorted rating_ge (sort_values_rating_desc df).
Proof.
  intros Hn.
  assert (Hn' : no_nan_rating (sort_values_rating_desc df)).
  { unfold no_nan_rating in *. rewrite Forall_forall in *.
    intros r Hr. apply Hn.
    eapply Permutation_in; [apply sort_values_perm|exact Hr]. }
  apply Sorted_StronglySorted.
  { intros a b c. apply rating_ge_trans. }
  pose proof (sort_by_sorted (desc_before rating)
                (desc_before_asym rating) df) as Hs.
  fold (sort_values_rating_desc df) in Hs.
  revert Hn' Hs. generalize (sort_values_rating_desc df) as l.
  induction l as [|a l IH]; intros Hn' Hs; [constructor|].
  inversion Hs as [|? ? Hs' Hhd]; subst.
  inversion Hn' as [|? ? Ha Hl]; subst.
  constructor; [apply IH; assumption|].
  destruct Hhd as [|b l' Hab]; constructor.
  inversion Hl as [|? ? Hb _]; subst.
  unfold in_order, desc_before, isna in Hab. rewrite Ha, Hb in Hab.
  unfold rating_ge. apply F64Facts.not_ltb_leb; assumption.
Qed.

(** The first [n] rows of a descending frame dominate the others. *)
Lemma head_dominates (n : nat) (l : list hotel) :
  StronglySorted rating_ge l ->
  Forall (fun a => Forall (fun b => rating_ge a b) (skipn n l)) (firstn n l).
Proof.
  intros Hs. revert n. induction Hs as [|a l Hs IH Ha]; intros n.
  - destruct n; simpl; constructor.
  - destruct n as [|n]; simpl; [constructor|].
    constructor.
    + rewrite Forall_forall in *. intros b Hb. apply Ha.
      rewrite <- (firstn_skipn n l). apply in_or_app. right. exact Hb.
    + apply IH.
Qed.

End PandasFacts.

(** ** String replacement *)

Module StrFacts.

Import Str.

Local Arguments Ascii.eqb : simpl never.

Lemma app_assoc (a b c : string) : (a ++ b) ++ c = a ++ (b ++ c).
Proof. induction a as [|x a IH]; simpl; [reflexivity|]. rewrite IH. reflexivity. Qed.

Lemma replace_comma (s : string) : replace "," "" s = without "," s.
Proof.
  unfold replace. induction s as [|c s IH]; simpl; [reflexivity|].
  destruct (Ascii.eqb_spec "," c) as [E|E].
  - subst c. rewrite Ascii.eqb_refl. simpl. exact IH.
  - destruct (Ascii.eqb_spec c ",") as [E'|E']; [congruence|].
    simpl. rewrite IH. reflexivity.
Qed.

(** Over a stretch without the letter E no occurrence of EGP starts. *)
Lemma replace_EGP_skip (a t : string) :
  lacks "E" a = true ->
  replace "EGP" "" (a ++ t) = a ++ replace "EGP" "" t.
Proof.
  unfold replace. induction a as [|c a IH]; simpl; intros H; [reflexivity|].
  apply andb_true_iff in H. destruct H as [Hc Ha].
  destruct (Ascii.eqb_spec "E" c) as [E|E].
  - subst c. discriminate.
  - rewrite (IH Ha). reflexivity.
Qed.

Lemma replace_EGP_here (t : string) :
  replace "EGP" "" ("EGP" ++ t) = replace "EGP" "" t.
Proof. reflexivity. Qed.

Lemma replace_EGP_suffix (a : string) :
  lacks "E" a = true -> replace "EGP" "" (a ++ "EGP") = a.
Proof.
  intros H. rewrite (replace_EGP_skip a "EGP" H).
  change (replace "EGP" "" "EGP") with "".
  induction a as [|c a IH]; simpl; [reflexivity|].
  simpl in H. apply andb_true_iff in H. rewrite (IH (proj2 H)). reflexivity.
Qed.

End StrFacts.

(** ** The rating pattern *)

Module ReFacts.

Import Re.

Lemma match_plus_cons (p : ascii -> bool) (k : list item) (c : ascii) (s : string) :
  match_here (Plus p :: k) (String c s) =
  if p c then
    match match_here (Plus p :: k) s with
    | Some m => Some (String c m)
    | None => option_map (String c) (match_here k s)
    end
  else None.
Proof. reflexivity. Qed.

Lemma match_plus_nil (p : ascii -> bool) (k : list item) :
  match_here (Plus p :: k) "" = None.
Proof. reflexivity. Qed.

Lemma digit_not_dot (c : ascii) : is_digit c = true -> is_dot c = false.
Proof.
  unfold is_digit, is_dot. intros H.
  apply andb_true_iff in H. destruct H as [H1 H2].
  apply Nat.leb_le in H1. apply Nat.eqb_neq. lia.
Qed.

(** A final [\d+] takes the longest run of digits. *)
Lemma match_digits (s : string) :
  match_here [Plus is_digit] s =
  match fst (span_digits s) with
  | String c d => Some (String c d)
  | EmptyString => None
  end.
Proof.
  induction s as [|c s IH]; [reflexivity|].
  rewrite match_plus_cons. simpl span_digits.
  destruct (is_digit c) eqn:Ec; [|reflexivity].
  rewrite IH. destruct (span_digits s) as [d r]. simpl.
  destruct d; reflexivity.
Qed.

(** Backtracking never helps [\d+\.\d+]: at a given position the match
    is the one the scanner finds. *)
Lemma match_here_decimal_at (s : string) :
  match_here rating_pattern s = decimal_at s.
Proof.
  unfold rating_pattern.
  induction s as [|c s IH]; [reflexivity|].
  rewrite match_plus_cons. unfold decimal_at. simpl span_digits.
  destruct (is_digit c) eqn:Ec; [|reflexivity].
  rewrite IH. unfold decimal_at.
  destruct (span_digits s) as [d1 r] eqn:Es.
  destruct d1 as [|c1 d1].
  - (* the run of digits ends here *)
    assert (Hr : r = s).
    { destruct s as [|c' s']; simpl in Es.
      - inversion Es. reflexivity.
      - destruct (is_digit c'); [destruct (span_digits s'); discriminate|].
        inversion Es. reflexivity. }
    subst r.
    destruct s as [|c2 r']; [reflexivity|].
    simpl match_here.
    destruct (is_dot c2) eqn:Ed; [|reflexivity].
    change ((fix more (s : string) : option string :=
               match s with
               | "" => None
               | String c0 s' =>
                   if is_digit c0
                   then match more s' with
                        | Some m => Some (String c0 m)
                        | None => option_map (String c0) (Some "")
                        end
                   else None
               end) r') with (match_here [Plus is_digit] r').
    rewrite match_digits.
    destruct (span_digits r') as [d2 r'']. simpl.
    destruct d2; reflexivity.
  - (* more digits follow *)
    destruct r as [|c2 r'].
    + simpl.
      destruct s as [|c' s']; simpl in Es; [discriminate|].
      destruct (is_digit c') eqn:Ec'.
      * simpl. rewrite (digit_not_dot c' Ec'). reflexivity.
      * discriminate.
    + destruct (is_dot c2) eqn:Ed.
      * destruct (span_digits r') as [d2 r''].
        destruct d2; [|reflexivity].
        destruct s as [|c' s']; simpl in Es; [discriminate|].
        destruct (is_digit c') eqn:Ec'; [|discriminate].
        simpl. rewrite (digit_not_dot c' Ec'). reflexivity.
      * destruct s as [|c' s']; simpl in Es; [discriminate|].
        destruct (is_digit c') eqn:Ec'; [|discriminate].
        simpl. rewrite (digit_not_dot c' Ec'). reflexivity.
Qed.

Lemma is_dot_eq (c : ascii) : is_dot c = true -> c = "."%char.
Proof.
  unfold is_dot. intros H. apply Nat.eqb_eq in H.
  rewrite <- (ascii_nat_embedding c), H. reflexivity.
Qed.

Lemma span_digits_spec (s d r : string) :
  span_digits s = (d, r) -> s = d ++ r /\ all_digits d = true.
Proof.
  revert d r. induction s as [|c s IH]; simpl; intros d r H.
  - inversion H. auto.
  - destruct (is_digit c) eqn:Ec.
    + destruct (span_digits s) as [d' r'] eqn:Es. inversion H; subst.
      destruct (IH d' r eq_refl) as [E1 E2]. simpl. rewrite Ec, E2.
      split; [congruence|reflexivity].
    + inversion H. auto.
Qed.

(** What the scanner returns is a prefix made of digits, a dot, digits. *)
Lemma decimal_at_shape (s m : string) :
  decimal_at s = Some m ->
  exists d1 d2 post,
    s = m ++ post /\ m = d1 ++ String "." d2
    /\ d1 <> "" /\ d2 <> ""
    /\ all_digits d1 = true /\ all_digits d2 = true.
Proof.
  unfold decimal_at. intros H.
  destruct (span_digits s) as [d1 r] eqn:E1.
  destruct d1 as [|c1 d1]; [discriminate|].
  destruct r as [|c r']; [discriminate|].
  destruct (is_dot c) eqn:Ed; [|discriminate].
  destruct (span_digits r') as [d2 r''] eqn:E2.
  destruct d2 as [|c2 d2]; [discriminate|].
  inversion H; subst m. apply is_dot_eq in Ed. subst c.
  apply span_digits_spec in E1. apply span_digits_spec in E2.
  destruct E1 as [E1 A1], E2 as [E2 A2].
  exists (String c1 d1), (String c2 d2), r''.
  repeat split; auto; try discriminate.
  rewrite E1, E2. simpl. f_equal.
  rewrite StrFacts.app_assoc. reflexivity.
Qed.

Lemma decimal_at_head (s m : string) :
  decimal_at s = Some m ->
  exists c m', m = String c m' /\ is_digit c = true.
Proof.
  intros H. destruct (decimal_at_shape s m H)
    as [d1 [d2 [post [_ [E [N1 [_ [A1 _]]]]]]]].
  destruct d1 as [|c d1]; [congruence|].
  simpl in A1. apply andb_true_iff in A1.
  exists c, (d1 ++ String "." d2). split; [exact E|apply A1].
Qed.

Lemma decimal_at_digit_dot_digit (s m : string) :
  decimal_at s = Some m -> digit_dot_digit s = true.
Proof.
  revert m. induction s as [|c s IH]; intros m H; [discriminate|].
  unfold decimal_at in H. simpl span_digits in H.
  destruct (is_digit c) eqn:Ec; [|discriminate].
  destruct (span_digits s) as [d1 r] eqn:Es.
  simpl digit_dot_digit. rewrite Ec.
  destruct d1 as [|c1 d1].
  - assert (Hr : r = s).
    { destruct s as [|c' s']; simpl in Es.
      - inversion Es. reflexivity.
      - destruct (is_digit c'); [destruct (span_digits s'); discriminate|].
        inversion Es. reflexivity. }
    subst r. destruct s as [|c2 r']; [discriminate|].
    destruct (is_dot c2) eqn:Ed; [|discriminate].
    destruct r' as [|c3 r'']; [discriminate|].
    simpl span_digits in H.
    destruct (is_digit c3) eqn:E3; [reflexivity|discriminate].
  - assert (Hs : exists m', decimal_at s = Some m').
    { unfold decimal_at. rewrite Es.
      destruct r as [|c2 r']; [discriminate|].
      destruct (is_dot c2); [|discriminate].
      destruct (span_digits r') as [d2 r''].
      destruct d2; [discriminate|]. eexists. reflexivity. }
    destruct Hs as [m' Hm']. rewrite (IH m' Hm').
    apply orb_true_r.
Qed.

Lemma decimal_at_here (a b c : ascii) (s : string) :
  is_digit a = true -> is_dot b = true -> is_digit c = true ->
  decimal_at (String a (String b (String c s))) <> None.
Proof.
  intros Ha Hb Hc.
  assert (Hb' : is_digit b = false).
  { destruct (is_digit b) eqn:E; [|reflexivity].
    rewrite (digit_not_dot b E) in Hb. discriminate. }
  unfold decimal_at. cbn [span_digits]. rewrite Ha, Hb'. cbn iota. rewrite Hb.
  cbn [span_digits]. rewrite Hc. destruct (span_digits s). discriminate.
Qed.

Lemma search_unfold (re : list item) (s : string) :
  search re s =
  match match_here re s with
  | Some m => Some m
  | None => match s with String _ s' => search re s' | EmptyString => None end
  end.
Proof. destruct s; reflexivity. Qed.

(** Extraction fails exactly on the strings without a digit, a dot and
    a digit in a row. *)
Lemma search_none_iff (s : string) :
  search rating_pattern s = None <-> digit_dot_digit s = false.
Proof.
  induction s as [|c s IH].
  - split; reflexivity.
  - rewrite search_unfold, match_here_decimal_at.
    destruct (decimal_at (String c s)) as [m|] eqn:Em.
    + rewrite (decimal_at_digit_dot_digit _ _ Em).
      split; discriminate.
    + rewrite IH. simpl digit_dot_digit.
      destruct (digit_dot_digit s); [rewrite orb_true_r; tauto|].
      rewrite orb_false_r.
      destruct (is_digit c) eqn:Ec; [|tauto].
      destruct s as [|b [|c3 s3]]; try tauto.
      simpl. destruct (is_dot b) eqn:Eb; [|tauto].
      destruct (is_digit c3) eqn:E3; [|tauto].
      exfalso. revert Em. apply decimal_at_here; assumption.
Qed.

(** The match returned by [search] is the leftmost one. *)
Lemma search_first (s m : string) :
  search rating_pattern s = Some m ->
  exists pre post,
    s = pre ++ m ++ post
    /\ match_here rating_pattern (m ++ post) = Some m
    /\ forall pre1 pre2, pre = pre1 ++ pre2 -> pre2 <> "" ->
         match_here rating_pattern (pre2 ++ m ++ post) = None.
Proof.
  induction s as [|c s IH]; rewrite search_unfold.
  - simpl. discriminate.
  - destruct (match_here rating_pattern (String c s)) as [m0|] eqn:Em.
    + intros H. inversion H; subst m0.
      pose proof Em as Em'. rewrite match_here_decimal_at in Em'.
      destruct (decimal_at_shape _ _ Em') as [_ [_ [post [E _]]]].
      exists "", post. simpl. rewrite <- E. repeat split; auto.
      intros pre1 pre2 Hp Hn. destruct pre1, pre2; simpl in Hp;
        try discriminate; congruence.
    + intros H. destruct (IH H) as [pre [post [E [Hm Hf]]]].
      exists (String c pre), post. simpl. rewrite <- E.
      repeat split; auto.
      intros pre1 pre2 Hp Hn.
      destruct pre1 as [|c1 pre1]; simpl in Hp.
      * subst pre2. simpl. rewrite <- E. exact Em.
      * inversion Hp; subst. apply (Hf pre1 pre2); auto.
Qed.

End ReFacts.

(** ** The number parser *)

Module NumFacts.

Import F64 Num.

Lemma lower_digit_head (c : ascii) (m : string) :
  Re.is_digit c = true -> lower (String c m) = String c (lower m).
Proof.
  unfold Re.is_digit. intros H. cbn [lower].
  apply andb_true_iff in H. destruct H as [H1 H2].
  apply Nat.leb_le in H1, H2.
  assert (E : (65 <=? nat_of_ascii c)%nat = false) by (apply Nat.leb_gt; lia).
  rewrite E. reflexivity.
Qed.

Lemma digit_head_neq (c x : ascii) (l t : string) :
  Re.is_digit c = true -> Re.is_digit x = false ->
  String.eqb (String c l) (String x t) = false.
Proof.
  intros Hc Hx. apply String.eqb_neq. intros E. inversion E; subst.
  congruence.
Qed.

End NumFacts.

(** ** The cleaner *)

Module CleanFacts.

Import F64 Booking.

Lemma read_rows_clean (i : nat) (file : list csv_row) :
  map (assign_rating clean_rating)
      (map (assign_price clean_price) (Pandas.read_rows i file))
  = map (fun p => clean_row (fst p) (snd p))
        (combine (seq i (List.length file)) file).
Proof.
  revert i. induction file as [|r file IH]; intros i; simpl; [reflexivity|].
  rewrite IH. reflexivity.
Qed.

Lemma In_combine_seq {A : Type} (l : list A) (k i : nat) (a : A) :
  In (i, a) (combine (seq k (List.length l)) l)
  <-> (k <= i)%nat /\ nth_error l (i - k) = Some a.
Proof.
  revert k. induction l as [|x l IH]; intros k; simpl.
  - split; [tauto|]. intros [_ H]. destruct (i - k)%nat; discriminate.
  - rewrite IH. split.
    + intros [H|[H1 H2]].
      * inversion H; subst. rewrite Nat.sub_diag. split; [lia|reflexivity].
      * split; [lia|]. replace (i - k)%nat with (S (i - S k)) by lia. exact H2.
    + intros [H1 H2]. destruct (Nat.eq_dec i k) as [E|E].
      * subst. rewrite Nat.sub_diag in H2. simpl in H2. left. congruence.
      * right. split; [lia|].
        replace (i - k)%nat with (S (i - S k)) in H2 by lia. exact H2.
Qed.

(** The cleaned table holds exactly the cleaned rows of the file whose
    price and rating are not missing, under their line numbers. *)
Lemma hotels_df_In (file : list csv_row) (h : hotel) :
  In h (hotels_df file) <->
  exists r, nth_error file (label h) = Some r
            /\ h = clean_row (label h) r
            /\ is_nan (price h) = false /\ is_nan (rating h) = false.
Proof.
  unfold hotels_df, Pandas.read_csv, Pandas.dropna, Pandas.isna.
  rewrite read_rows_clean, filter_In, in_map_iff. split.
  - intros [[[i r] [E Hin]] Hn]. simpl in E. subst h.
    apply In_combine_seq in Hin. destruct Hin as [_ Hin].
    rewrite Nat.sub_0_r in Hin.
    apply andb_true_iff in Hn. destruct Hn as [Hp Hr].
    apply negb_true_iff in Hp, Hr.
    exists r. simpl. auto.
  - intros [r [Hn [E [Hp Hr]]]]. split.
    + exists (label h, r). split; [simpl; congruence|].
      apply In_combine_seq. rewrite Nat.sub_0_r. split; [lia|exact Hn].
    + rewrite Hp, Hr. reflexivity.
Qed.

Lemma kept_true_iff (file : list csv_row) (i : nat) :
  kept file i = true <->
  exists r, nth_error file i = Some r
            /\ is_nan (clean_price (Pandas.read_field (csv_price r))) = false
            /\ is_nan (clean_rating (Pandas.read_field (csv_rating r))) = false.
Proof.
  unfold kept. rewrite existsb_exists. split.
  - intros [j [Hin E]]. apply Nat.eqb_eq in E. subst j.
    apply in_map_iff in Hin. destruct Hin as [h [El Hh]].
    apply hotels_df_In in Hh. destruct Hh as [r [Hn [Eh [Hp Hr]]]].
    rewrite El in *. exists r. rewrite Eh in Hp, Hr. simpl in Hp, Hr. auto.
  - intros [r [Hn [Hp Hr]]]. exists i. split; [|apply Nat.eqb_refl].
    apply in_map_iff. exists (clean_row i r). split; [reflexivity|].
    apply hotels_df_In. exists r. simpl. auto.
Qed.

(** A line whose price or rating cleans to the missing marker has no row
    in the cleaned table. *)
Lemma dropped_if_missing (file : list csv_row) (i : nat) (r : csv_row) :
  nth_error file i = Some r ->
  is_nan (clean_price (Pandas.read_field (csv_price r))) = true
  \/ is_nan (clean_rating (Pandas.read_field (csv_rating r))) = true ->
  kept file i = false.
Proof.
  intros Hn Hm. destruct (kept file i) eqn:E; [|reflexivity].
  apply kept_true_iff in E. destruct E as [r' [Hn' [Hp Hr]]].
  assert (r' = r) by congruence. subst r'.
  destruct Hm as [Hm|Hm]; congruence.
Qed.

End CleanFacts.

(** ** Running the script *)

Module ScriptFacts.

Import Booking Script.

Lemma apply_filters_runs (c : controls) (base : list hotel) :
  apply_filters c (start base) = (Returned tt, filtered_state c base).
Proof. reflexivity. Qed.

Lemma first_charts_runs (c : controls) (base : list hotel) :
  first_charts (filtered_state c base) = (Returned tt, histogram_state c base).
Proof. reflexivity. Qed.

Lemma last_charts_runs (c : controls) (base : list hotel) (f : Plot.figure) :
  last_charts
    (mk_state (heap (histogram_state c base) ++ [Fig f])
              (("fig_rating_vs_price", 5%nat) :: globals (histogram_state c base)))
  = (Returned tt, final_state c base f).
Proof. reflexivity. Qed.

(** One interaction: it runs to its end when the scatter plot can be
    built, and stops there with [ValueError] otherwise. *)
Lemma interaction_runs (c : controls) (base : list hotel) :
  interaction c (start base) = after_interaction c base.
Proof.
  unfold interaction, build_charts, bind at 1.
  rewrite apply_filters_runs. unfold bind at 1. rewrite first_charts_runs.
  unfold bind at 1, scatter_chart, after_interaction, fig_rating_vs_price.
  unfold bind at 1.
  change (frame_of "filtered_df" (histogram_state c base))
    with (Returned (filtered_df c base), histogram_state c base).
  cbv beta iota.
  destruct (Plot.scatter_rating_price "Rating vs. Price Analysis"
              "Hotel Rating" "Price (EGP)" (filtered_df c base)) as [f|].
  - apply last_charts_runs.
  - reflexivity.
Qed.

End ScriptFacts.

(** ** The filter *)

Module FilterFacts.

Import F64 Booking.

Lemma filtered_df_filter (c : controls) (df : list hotel) :
  filtered_df c df = filter (keep c) df.
Proof. apply PandasFacts.getitem_mask_filter. Qed.

Lemma keep_inv (c : controls) (r : hotel) :
  keep c r = true ->
  leb (min_price c) (price r) = true /\ leb (price r) (max_price c) = true
  /\ leb (min_rating c) (rating r) = true /\ leb (rating r) (max_rating c) = true
  /\ In (location r) (selected_locations c).
Proof.
  unfold keep, geb. intros H.
  repeat (apply andb_true_iff in H; destruct H as [H ?]).
  repeat split; auto. apply PandasFacts.isin_In. assumption.
Qed.

(** No row that passes the filter has a missing price or rating. *)
Lemma filtered_no_nan (c : controls) (df : list hotel) :
  Forall (fun r => is_nan (price r) = false /\ is_nan (rating r) = false)
         (filtered_df c df).
Proof.
  rewrite filtered_df_filter, Forall_forall. intros r Hr.
  apply filter_In in Hr. destruct Hr as [_ Hk].
  destruct (keep_inv c r Hk) as [H1 [_ [H3 _]]].
  split; [exact (proj2 (F64Facts.leb_not_nan _ _ H1))
         |exact (proj2 (F64Facts.leb_not_nan _ _ H3))].
Qed.

Lemma filtered_no_nan_rating (c : controls) (df : list hotel) :
  Pandas.no_nan_rating (filtered_df c df).
Proof.
  unfold Pandas.no_nan_rating.
  eapply Forall_impl; [|apply filtered_no_nan]. simpl. tauto.
Qed.

Lemma budget_hotels_filter (fdf : list hotel) :
  budget_hotels fdf
  = filter (fun r => ltb (price r) (Pandas.mean (map price fdf))) fdf.
Proof. apply PandasFacts.getitem_mask_filter. Qed.


End FilterFacts.

(** ** Means and finite bounds *)

Module MeanFacts.

Import F64.




(** A value between two finite bounds is finite. *)
Lemma finite_between (lo hi x : float) :
  is_finite lo = true -> is_finite hi = true ->
  leb lo x = true -> leb x hi = true -> is_finite x = true.
Proof.
  destruct x as [s|s| |s m e]; try reflexivity.
  - destruct s.
    + destruct lo as [sl|sl| |sl ml el]; simpl; try discriminate;
        intros _ _ H; destruct sl; discriminate.
    + destruct hi as [sh|sh| |sh mh eh]; simpl; try discriminate;
        intros _ _ _ H; destruct sh; discriminate.
  - destruct lo; simpl; discriminate.
Qed.

End MeanFacts.

(** * The claims *)

Import F64 Booking.

(** C1. Every record of the filter's output has its price within
    [min_price, max_price] and its rating within [min_rating, max_rating],
    both bounds included, and its location among the selected ones; every
    output record is an input record, and the output has at most as many
    records as the input. *)
Theorem filter_output_within_controls (c : controls) (df : list hotel) :
  Forall (fun r =>
            leb (min_price c) (price r) = true
            /\ leb (price r) (max_price c) = true
            /\ leb (min_rating c) (rating r) = true
            /\ leb (rating r) (max_rating c) = true
            /\ In (location r) (selected_locations c))
         (filtered_df c df)
  /\ incl (filtered_df c df) df
  /\ (List.length (filtered_df c df) <= List.length df)%nat.
Proof.
  rewrite FilterFacts.filtered_df_filter. repeat split.
  - rewrite Forall_forall. intros r Hr. apply filter_In in Hr.
    apply FilterFacts.keep_inv. apply Hr.
  - intros r Hr. apply filter_In in Hr. apply Hr.
  - apply PandasFacts.filter_length_le.
Qed.

(** C7. The filter is idempotent: applied to its own output with the
    same control values it returns that output unchanged. *)
Theorem filter_idempotent (c : controls) (df : list hotel) :
  filtered_df c (filtered_df c df) = filtered_df c df.
Proof.
  rewrite !FilterFacts.filtered_df_filter.
  apply PandasFacts.filter_twice.
Qed.

(** C8. Filtering does not change the base table.  Running the filter
    on the store that holds the base table returns and binds
    [filtered_df] to a new object; [hotels_df] still refers to the same
    object with the same rows after the filter, and also in the store
    the chart builders leave, whether they ran to the end or one of them
    raised. *)
Theorem base_table_unchanged (c : controls) (base : list hotel) :
  let s0 := Script.start base in
  let s1 := snd (Script.apply_filters c s0) in
  let s2 := snd (Script.interaction c s0) in
  fst (Script.apply_filters c s0) = Script.Returned tt
  /\ Script.value_of "hotels_df" s0 = Some (Script.Frame base)
  /\ Script.value_of "hotels_df" s1 = Some (Script.Frame base)
  /\ Script.value_of "hotels_df" s2 = Some (Script.Frame base)
  /\ Script.lookup "hotels_df" (Script.globals s1)
     = Script.lookup "hotels_df" (Script.globals s0)
  /\ Script.lookup "hotels_df" (Script.globals s2)
     = Script.lookup "hotels_df" (Script.globals s0)
  /\ Script.lookup "filtered_df" (Script.globals s1)
     <> Script.lookup "hotels_df" (Script.globals s1)
  /\ Script.value_of "filtered_df" s1
     = Some (Script.Frame (filtered_df c base))
  /\ firstn 1 (Script.heap s2) = Script.heap s0.
Proof.
  intros s0 s1 s2. unfold s2, s1, s0.
  rewrite ScriptFacts.interaction_runs, ScriptFacts.apply_filters_runs.
  unfold Script.after_interaction.
  destruct (fig_rating_vs_price (filtered_df c base)) as [f|];
    repeat split; try reflexivity; simpl; discriminate.
Qed.





(** ** The order of the bars of the last chart *)

Module LayoutFacts.

Lemma Sorted_weaken {A : Type} (R R' : A -> A -> Prop) (l : list A) :
  (forall a b, R a b -> R' a b) -> Sorted R l -> Sorted R' l.
Proof.
  intros HR. induction 1 as [|a l Hs IH Hhd]; constructor; auto.
  destruct Hhd; constructor; auto.
Qed.

Lemma ltb_nan_l (x y : float) : is_nan x = true -> ltb x y = false.
Proof. destruct x; try discriminate. reflexivity. Qed.

(** With the ['total ascending'] order no bar is followed by a bar of a
    strictly smaller total. *)
Lemma total_ascending_bars (f : Plot.figure) :
  Plot.xaxis_categoryorder f = Plot.TotalAscending -> Plot.bars_ascending f.
Proof.
  intros E. unfold Plot.bars_ascending, Plot.displayed_categories. rewrite E.
  eapply Sorted_weaken;
    [|apply (PandasFacts.sort_by_sorted
               (Pandas.asc_before (Plot.category_total f))
               (PandasFacts.asc_before_asym (Plot.category_total f)))].
  intros a b. unfold Pandas.in_order, Pandas.asc_before, Pandas.isna.
  destruct (is_nan (Plot.category_total f b)) eqn:Eb.
  - intros _. apply ltb_nan_l. exact Eb.
  - destruct (is_nan (Plot.category_total f a)); [discriminate|auto].
Qed.

End LayoutFacts.

(** C9, as stated, fails: on the scenario table the eighth chart is
    given hotel B (9.0) before hotel A (7.0), but its axis is laid out
    by ascending total, A before B, which is not a descending order of
    the ratings. *)
Lemma last_chart_not_descending :
  map Plot.x_cell
      (Plot.points
         (fig_price (filtered_df scenario_controls (hotels_df scenario_file))))
  = [Some "B"; Some "A"]
  /\ Plot.displayed_categories
       (fig_price (filtered_df scenario_controls (hotels_df scenario_file)))
     = [Some "A"; Some "B"]
  /\ ~ Plot.bars_descending
        (fig_price (filtered_df scenario_controls (hotels_df scenario_file))).
Proof.
  assert (Ed : Plot.displayed_categories
                 (fig_price (filtered_df scenario_controls
                                         (hotels_df scenario_file)))
               = [Some "A"; Some "B"])
    by (vm_compute; reflexivity).
  split; [vm_compute; reflexivity|]. split; [exact Ed|].
  unfold Plot.bars_descending. rewrite Ed. intros H.
  inversion H as [|? ? _ Hhd]; subst.
  inversion Hhd as [|? ? Hab]; subst.
  vm_compute in Hab. discriminate.
Qed.

(** C9, amended.  The eighth chart is a bar chart built from all the
    rows of the filtered table, none left out, handed to the chart in
    descending order of rating, one bar per row with the hotel name on
    the x axis and as bar text and the rating as height; its x axis is
    set to the ['total ascending'] category order, so along the axis no
    bar is followed by a bar of a smaller total rating. *)
Theorem last_chart_all_hotels (c : controls) (base : list hotel) :
  let fdf := filtered_df c base in
  let sorted := Pandas.sort_values_rating_desc fdf in
  Plot.kind (fig_price fdf) = Plot.Bar
  /\ Plot.points (fig_price fdf)
     = map (fun r => Plot.mk_point (Plot.Text (name r))
                       (Some (Plot.Number (rating r)))
                       (Some (Plot.Text (name r))) None None None) sorted
  /\ Permutation sorted fdf
  /\ List.length (Plot.points (fig_price fdf)) = List.length fdf
  /\ StronglySorted Pandas.rating_ge sorted
  /\ Plot.xaxis_categoryorder (fig_price fdf) = Plot.TotalAscending
  /\ Plot.bars_ascending (fig_price fdf).
Proof.
  intros fdf sorted.
  pose proof (PandasFacts.sort_values_perm fdf) as Hp.
  split; [reflexivity|]. split; [reflexivity|]. split; [exact Hp|].
  split.
  { change (Plot.points (fig_price fdf))
      with (map (fun r => Plot.mk_point (Plot.Text (name r))
                            (Some (Plot.Number (rating r)))
                            (Some (Plot.Text (name r))) None None None) sorted).
    rewrite length_map. apply Permutation_length. exact Hp. }
  split.
  { apply PandasFacts.sort_values_sorted.
    apply FilterFacts.filtered_no_nan_rating. }
  split; [reflexivity|].
  apply LayoutFacts.total_ascending_bars. reflexivity.
Qed.

(** C2. The price cleaner removes the text EGP and the commas, trims
    the white space and parses what is left as a double, with the
    missing marker when that fails: for a text made of a part without
    the letter E followed by the suffix EGP, what is parsed is that part
    without its commas.  "1,234 EGP" becomes 1234.0, "N/A" becomes the
    missing marker, and a line whose price field is "N/A" has no row in
    the cleaned table. *)
Theorem price_cleaning :
  (forall s,
      clean_price (Some s)
      = match Num.floatify (Str.strip (Str.without "," (Str.replace "EGP" "" s))) with
        | Some v => v
        | None => nan
        end)
  /\ (forall body,
        Str.lacks "E" body = true ->
        clean_price (Some (body ++ "EGP"))
        = Pandas.to_numeric_coerce (Some (Str.strip (Str.without "," body))))
  /\ clean_price (Pandas.read_field "1,234 EGP") = dyadic 1234 0
  /\ is_nan (clean_price (Pandas.read_field "N/A")) = true
  /\ (forall file i r,
        nth_error file i = Some r -> csv_price r = "N/A" ->
        kept file i = false).
Proof.
  split.
  { intros s. unfold clean_price, Pandas.str_map, Pandas.to_numeric_coerce.
    simpl option_map. rewrite StrFacts.replace_comma. reflexivity. }
  split.
  { intros body H. unfold clean_price, Pandas.str_map. simpl option_map.
    rewrite (StrFacts.replace_EGP_suffix body H), StrFacts.replace_comma.
    reflexivity. }
  split; [vm_compute; reflexivity|].
  split; [vm_compute; reflexivity|].
  intros file i r Hn Hp. apply (CleanFacts.dropped_if_missing file i r Hn).
  left. rewrite Hp. vm_compute. reflexivity.
Qed.

Lemma price_cleaning_witness :
  clean_price (Some ("1,234 " ++ "EGP")) = dyadic 1234 0
  /\ kept [mk_csv "A" "Cairo" "N/A" "7.0 Good"] 0 = false.
Proof.
  destruct price_cleaning as [_ [Hsuffix [_ [_ Hdrop]]]].
  split.
  - rewrite (Hsuffix "1,234 " eq_refl). vm_compute. reflexivity.
  - apply (Hdrop [mk_csv "A" "Cairo" "N/A" "7.0 Good"] 0%nat
                 (mk_csv "A" "Cairo" "N/A" "7.0 Good")); reflexivity.
Defined.

(** C3. The rating cleaner takes the first substring of the form
    digits, dot, digits: the text splits around the match, the match is
    two non-empty runs of digits joined by a dot, and the pattern matches
    at no earlier position.  The match is parsed as a double; without a
    match, or for a missing cell, the rating is the missing marker.
    "8.5 Excellent" becomes 8.5, "Excellent" becomes the missing marker,
    and a line whose rating field is "Excellent" has no row in the
    cleaned table. *)
Theorem rating_cleaning :
  (forall s m,
      Re.search Re.rating_pattern s = Some m ->
      clean_rating (Some s) = Pandas.to_numeric_coerce (Some m)
      /\ exists pre post d1 d2,
           s = pre ++ m ++ post
           /\ m = d1 ++ String "." d2
           /\ d1 <> "" /\ d2 <> ""
           /\ Re.all_digits d1 = true /\ Re.all_digits d2 = true
           /\ forall pre1 pre2, pre = pre1 ++ pre2 -> pre2 <> "" ->
                Re.match_here Re.rating_pattern (pre2 ++ m ++ post) = None)
  /\ (forall s, Re.search Re.rating_pattern s = None ->
                clean_rating (Some s) = nan)
  /\ clean_rating None = nan
  /\ clean_rating (Pandas.read_field "8.5 Excellent") = dyadic 17 (-1)
  /\ is_nan (clean_rating (Pandas.read_field "Excellent")) = true
  /\ (forall file i r,
        nth_error file i = Some r -> csv_rating r = "Excellent" ->
        kept file i = false).
Proof.
  split.
  { intros s m Hs. split.
    - unfold clean_rating, Pandas.str_extract. rewrite Hs. reflexivity.
    - destruct (ReFacts.search_first s m Hs) as [pre [post [E [Hm Hf]]]].
      rewrite ReFacts.match_here_decimal_at in Hm.
      destruct (ReFacts.decimal_at_shape _ _ Hm)
        as [d1 [d2 [_ [_ [Em [N1 [N2 [A1 A2]]]]]]]].
      exists pre, post, d1, d2. repeat split; auto. }
  split.
  { intros s Hs. unfold clean_rating, Pandas.str_extract. rewrite Hs.
    reflexivity. }
  split; [reflexivity|].
  split; [vm_compute; reflexivity|].
  split; [vm_compute; reflexivity|].
  intros file i r Hn Hr. apply (CleanFacts.dropped_if_missing file i r Hn).
  right. rewrite Hr. vm_compute. reflexivity.
Qed.

Lemma rating_cleaning_witness :
  clean_rating (Some "8.5 Excellent") = Pandas.to_numeric_coerce (Some "8.5")
  /\ clean_rating (Some "Excellent") = nan
  /\ kept [mk_csv "A" "Cairo" "1,000 EGP" "Excellent"] 0 = false.
Proof.
  destruct rating_cleaning as [Hsome [Hnone [_ [_ [_ Hdrop]]]]].
  split; [apply (Hsome "8.5 Excellent" "8.5" eq_refl)|].
  split; [apply (Hnone "Excellent" eq_refl)|].
  apply (Hdrop [mk_csv "A" "Cairo" "1,000 EGP" "Excellent"] 0%nat
               (mk_csv "A" "Cairo" "1,000 EGP" "Excellent")); reflexivity.
Defined.

(** C10. A rating text without a digit, a dot and a digit in a row has
    no match for the pattern, however many digits it holds: its rating
    is the missing marker and its line has no row in the cleaned table;
    "9 Good" is such a text.  A text that has such a triple does match. *)
Theorem rating_without_decimal_point_dropped :
  (forall s,
      Re.digit_dot_digit s = false ->
      Re.search Re.rating_pattern s = None
      /\ is_nan (clean_rating (Some s)) = true)
  /\ (forall s,
        Re.digit_dot_digit s = true -> Re.search Re.rating_pattern s <> None)
  /\ Re.digit_dot_digit "9 Good" = false
  /\ is_nan (clean_rating (Pandas.read_field "9 Good")) = true
  /\ (forall file i r,
        nth_error file i = Some r ->
        Re.digit_dot_digit (csv_rating r) = false ->
        kept file i = false).
Proof.
  assert (Hnan : forall s, Re.digit_dot_digit s = false ->
                           is_nan (clean_rating (Some s)) = true).
  { intros s H. apply ReFacts.search_none_iff in H.
    unfold clean_rating, Pandas.str_extract. rewrite H. reflexivity. }
  split.
  { intros s H. split; [apply ReFacts.search_none_iff; exact H|auto]. }
  split.
  { intros s H E. apply ReFacts.search_none_iff in E. congruence. }
  split; [reflexivity|].
  split; [vm_compute; reflexivity|].
  intros file i r Hn Hd. apply (CleanFacts.dropped_if_missing file i r Hn).
  right. unfold Pandas.read_field.
  destruct (existsb _ _); [reflexivity|]. apply Hnan. exact Hd.
Qed.

Lemma rating_without_decimal_point_dropped_witness :
  Re.search Re.rating_pattern "9 Good" = None
  /\ kept [mk_csv "E" "Giza" "500 EGP" "9 Good"] 0 = false.
Proof.
  destruct rating_without_decimal_point_dropped as [Hnone [_ [_ [_ Hdrop]]]].
  split; [apply (Hnone "9 Good" eq_refl)|].
  apply (Hdrop [mk_csv "E" "Giza" "500 EGP" "9 Good"] 0%nat
               (mk_csv "E" "Giza" "500 EGP" "9 Good")); reflexivity.
Defined.

(** C4, as stated, fails: the price text "inf EGP" cleans to plus
    infinity, which is not missing, so its row stays in the cleaned table
    with a price that is not finite. *)
Lemma infinite_price_survives :
  map price (hotels_df infinite_price_file) = [inf]
  /\ ~ Forall (fun r => is_finite (price r) = true
                        /\ is_finite (rating r) = true)
              (hotels_df infinite_price_file).
Proof.
  assert (E : hotels_df infinite_price_file
              = [mk_row 0 (Some "D") (Some "Giza") inf (dyadic 19 (-1))])
    by (vm_compute; reflexivity).
  rewrite E. split; [reflexivity|].
  intros H. inversion H as [|? ? [Hp _] _]; subst. discriminate.
Qed.

(** C4, amended.  In every row of the cleaned table the price and the
    rating are present and are not NaN (either may be infinite).  In
    every row of a filtered table made from it with finite slider
    bounds, which is all a chart builder is given, the price and the
    rating are finite numbers. *)
Theorem cleaned_rows_not_missing (file : list csv_row) (c : controls) :
  is_finite (min_price c) = true -> is_finite (max_price c) = true ->
  is_finite (min_rating c) = true -> is_finite (max_rating c) = true ->
  Forall (fun r => is_nan (price r) = false /\ is_nan (rating r) = false)
         (hotels_df file)
  /\ Forall (fun r => is_finite (price r) = true /\ is_finite (rating r) = true)
            (filtered_df c (hotels_df file)).
Proof.
  intros F1 F2 F3 F4. split.
  - rewrite Forall_forall. intros h Hh.
    apply CleanFacts.hotels_df_In in Hh.
    destruct Hh as [r [_ [_ [Hp Hr]]]]. auto.
  - rewrite FilterFacts.filtered_df_filter, Forall_forall. intros r Hr.
    apply filter_In in Hr. destruct Hr as [_ Hk].
    destruct (FilterFacts.keep_inv c r Hk) as [K1 [K2 [K3 [K4 _]]]].
    split; [exact (MeanFacts.finite_between _ _ _ F1 F2 K1 K2)
           |exact (MeanFacts.finite_between _ _ _ F3 F4 K3 K4)].
Qed.

Lemma cleaned_rows_not_missing_witness :
  Forall (fun r => is_nan (price r) = false /\ is_nan (rating r) = false)
         (hotels_df scenario_file)
  /\ Forall (fun r => is_finite (price r) = true /\ is_finite (rating r) = true)
            (filtered_df scenario_controls (hotels_df scenario_file)).
Proof.
  apply (cleaned_rows_not_missing scenario_file scenario_controls);
    vm_compute; reflexivity.
Defined.

(** * Further properties of the script *)

(** ** More on the order of doubles *)

Module OrderFacts.

Lemma leb_refl (x : float) : is_nan x = false -> leb x x = true.
Proof.
  intros H. apply F64Facts.leb_rank; auto. right. reflexivity.
Qed.

Lemma leb_total (x y : float) :
  is_nan x = false -> is_nan y = false -> leb x y = true \/ leb y x = true.
Proof.
  intros Hx Hy. destruct (ltb y x) eqn:E.
  - right. destruct (F64Facts.compare_rank y x Hy Hx) as [c [Hc Hr]].
    unfold leb, SFleb. unfold ltb, SFltb in E. rewrite Hc in *.
    destruct c; try discriminate; reflexivity.
  - left. apply F64Facts.not_ltb_leb; auto.
Qed.

(** Zero is below every value whose sign bit is clear. *)
Lemma zero_leb_sign_clear (x : float) :
  is_nan x = false -> sign_clear x = true -> leb zero x = true.
Proof.
  destruct x as [s|s| |s m e]; simpl; try discriminate;
    destruct s; try discriminate; reflexivity.
Qed.

Lemma filter_none {A : Type} (p : A -> bool) (l : list A) :
  (forall a, In a l -> p a = false) -> filter p l = [].
Proof.
  induction l as [|a l IH]; intros H; simpl; [reflexivity|].
  rewrite (H a (or_introl eq_refl)). apply IH.
  intros b Hb. apply H. right. exact Hb.
Qed.

Lemma filter_filter {A : Type} (p q : A -> bool) (l : list A) :
  filter p (filter q l) = filter (fun a => p a && q a) l.
Proof.
  induction l as [|a l IH]; simpl; [reflexivity|].
  destruct (q a); simpl; [|rewrite andb_false_r; exact IH].
  rewrite andb_true_r. destruct (p a); [rewrite IH|]; auto.
Qed.

Lemma filter_strongly_sorted {A : Type} (R : A -> A -> Prop) (p : A -> bool)
  (l : list A) :
  StronglySorted R l -> StronglySorted R (filter p l).
Proof.
  induction 1 as [|a l Hs IH Ha]; simpl; [constructor|].
  destruct (p a); [|exact IH]. constructor; [exact IH|].
  rewrite Forall_forall in *. intros b Hb. apply Ha.
  apply filter_In in Hb. apply Hb.
Qed.

Lemma map_filter_label (p : hotel -> bool) (l : list hotel) :
  StronglySorted lt (map label l) -> StronglySorted lt (map label (filter p l)).
Proof.
  induction l as [|a l IH]; simpl; intros H; [constructor|].
  inversion H as [|? ? Hs Ha]; subst.
  destruct (p a); simpl; [|apply IH; exact Hs].
  constructor; [apply IH; exact Hs|].
  rewrite Forall_forall in *. intros n Hn. apply Ha.
  apply in_map_iff in Hn. destruct Hn as [r [E Hr]].
  apply in_map_iff. exists r. split; [exact E|].
  apply filter_In in Hr. apply Hr.
Qed.

End OrderFacts.

(** X1. Widening the widgets never loses a hotel: when the second
    setting has lower minima, higher maxima and at least the same
    locations, every row of the first filtered view is in the second. *)
Theorem filter_monotone (c c' : controls) (df : list hotel) :
  wider c c' -> incl (filtered_df c df) (filtered_df c' df).
Proof.
  intros [H1 [H2 [H3 [H4 H5]]]] r Hr.
  rewrite FilterFacts.filtered_df_filter in *.
  apply filter_In in Hr. destruct Hr as [Hin Hk].
  apply filter_In. split; [exact Hin|].
  destruct (FilterFacts.keep_inv c r Hk) as [K1 [K2 [K3 [K4 K5]]]].
  unfold keep. repeat (apply andb_true_iff; split).
  - exact (F64Facts.leb_trans _ _ _ H1 K1).
  - exact (F64Facts.leb_trans _ _ _ K2 H2).
  - exact (F64Facts.leb_trans _ _ _ H3 K3).
  - exact (F64Facts.leb_trans _ _ _ K4 H4).
  - apply PandasFacts.isin_In. apply H5. exact K5.
Qed.

Lemma filter_monotone_witness :
  wider mid_controls scenario_controls
  /\ map label (filtered_df mid_controls (hotels_df scenario_file)) = [1%nat]
  /\ map label (filtered_df scenario_controls (hotels_df scenario_file))
     = [0%nat; 1%nat]
  /\ incl (filtered_df mid_controls (hotels_df scenario_file))
          (filtered_df scenario_controls (hotels_df scenario_file)).
Proof.
  assert (W : wider mid_controls scenario_controls).
  { repeat split; try (vm_compute; reflexivity).
    intros a H. vm_compute in H. vm_compute. exact H. }
  split; [exact W|].
  split; [vm_compute; reflexivity|].
  split; [vm_compute; reflexivity|].
  apply (filter_monotone mid_controls scenario_controls
                         (hotels_df scenario_file) W).
Defined.

(** X2. The filtered view is empty whenever no location is selected, or
    a range is inverted (its maximum below its minimum). *)
Theorem filter_empty_selection (c : controls) (df : list hotel) :
  selected_locations c = []
  \/ ltb (max_price c) (min_price c) = true
  \/ ltb (max_rating c) (min_rating c) = true ->
  filtered_df c df = [].
Proof.
  intros H. rewrite FilterFacts.filtered_df_filter.
  apply OrderFacts.filter_none. intros r _.
  destruct (keep c r) eqn:Hk; [|reflexivity]. exfalso.
  destruct (FilterFacts.keep_inv c r Hk) as [K1 [K2 [K3 [K4 K5]]]].
  destruct H as [H|[H|H]].
  - rewrite H in K5. exact K5.
  - pose proof (F64Facts.leb_not_ltb _ _ (F64Facts.leb_trans _ _ _ K1 K2)).
    congruence.
  - pose proof (F64Facts.leb_not_ltb _ _ (F64Facts.leb_trans _ _ _ K3 K4)).
    congruence.
Qed.

Lemma filter_empty_selection_witness :
  filtered_df (mk_controls zero (of_Z 1000) zero (of_Z 10) [])
              (hotels_df scenario_file) = []
  /\ filtered_df (mk_controls (of_Z 600) (of_Z 100) zero (of_Z 10)
                              [Some "Cairo"; Some "Giza"])
                 (hotels_df scenario_file) = [].
Proof.
  split.
  - apply filter_empty_selection. left. reflexivity.
  - apply filter_empty_selection. right. left. vm_compute. reflexivity.
Defined.

(** X3. Two filters applied one after the other keep exactly the rows
    that pass both, in either order of application. *)
Theorem filter_compose (c1 c2 : controls) (df : list hotel) :
  filtered_df c1 (filtered_df c2 df) = filter (keep_both c1 c2) df
  /\ filtered_df c1 (filtered_df c2 df) = filtered_df c2 (filtered_df c1 df).
Proof.
  rewrite !FilterFacts.filtered_df_filter, !OrderFacts.filter_filter.
  split; [reflexivity|].
  apply filter_ext. intros r. apply andb_comm.
Qed.

(** ** Signs through the number parser *)

Module SignFacts.

Import Num.

Lemma round_aux_sign_clear (m e : Z) (l : SpecFloat.location) :
  sign_clear (binary_round_aux prec emax false m e l) = true.
Proof.
  unfold binary_round_aux.
  destruct (shr_fexp prec emax m e l) as [mrs' e'].
  destruct (shr_fexp prec emax _ e' loc_Exact) as [mrs'' e''].
  destruct (shr_m mrs''); [reflexivity| |reflexivity].
  destruct (Z.leb e'' (emax - prec)); reflexivity.
Qed.

Lemma dyadic_sign_clear (m e : Z) : 0 <= m -> sign_clear (dyadic m e) = true.
Proof.
  intros H. unfold dyadic, binary_normalize.
  destruct m as [|p|p]; [reflexivity| |lia].
  unfold binary_round. destruct (shl_align _ _ _). apply round_aux_sign_clear.
Qed.

Lemma of_Z_sign_clear (z : Z) : 0 <= z -> sign_clear (of_Z z) = true.
Proof. apply dyadic_sign_clear. Qed.

Lemma mul_sign_clear (x y : float) :
  sign_clear x = true -> sign_clear y = true -> sign_clear (mul x y) = true.
Proof.
  destruct x as [sx|sx| |sx mx ex], y as [sy|sy| |sy my ey]; simpl;
    try reflexivity; intros Hx Hy;
    apply negb_true_iff in Hx; apply negb_true_iff in Hy; subst;
    try reflexivity.
  apply round_aux_sign_clear.
Qed.

Lemma div_sign_clear (x y : float) :
  sign_clear x = true -> sign_clear y = true -> sign_clear (div x y) = true.
Proof.
  destruct x as [sx|sx| |sx mx ex], y as [sy|sy| |sy my ey]; simpl;
    try reflexivity; intros Hx Hy;
    apply negb_true_iff in Hx; apply negb_true_iff in Hy; subst;
    try reflexivity.
  unfold div, SFdiv.
  destruct (SFdiv_core_binary prec emax (Zpos mx) ex (Zpos my) ey) as [[mz ez] lz].
  apply round_aux_sign_clear.
Qed.

Lemma add_sign_clear (x y : float) :
  sign_clear x = true -> sign_clear y = true -> sign_clear (add x y) = true.
Proof.
  destruct x as [sx|sx| |sx mx ex], y as [sy|sy| |sy my ey]; simpl;
    try reflexivity; intros Hx Hy;
    apply negb_true_iff in Hx; apply negb_true_iff in Hy; subst;
    try reflexivity.
  unfold add, SFadd, cond_Zopp.
  apply (dyadic_sign_clear _ (Z.min ex ey)). lia.
Qed.

Lemma digit_value_nonneg (c : ascii) :
  isdigit_ascii c = true -> 0 <= digit_value c.
Proof.
  unfold isdigit_ascii, Re.is_digit, digit_value. intros H.
  apply andb_true_iff in H. destruct H as [H _]. apply Nat.leb_le in H. lia.
Qed.

Lemma push_digit_sign_clear (x : float) (c : ascii) :
  sign_clear x = true -> isdigit_ascii c = true ->
  sign_clear (push_digit x c) = true.
Proof.
  intros Hx Hc. unfold push_digit.
  apply add_sign_clear; [apply mul_sign_clear; [exact Hx|]|];
    apply of_Z_sign_clear; [lia|apply digit_value_nonneg; exact Hc].
Qed.

Lemma integer_part_sign_clear (s : string) (x : float) (nd : nat) (e : Z) :
  sign_clear x = true ->
  sign_clear (fst (fst (fst (integer_part s x nd e)))) = true.
Proof.
  revert x nd e. induction s as [|c s IH]; intros x nd e Hx; simpl; [exact Hx|].
  destruct (isdigit_ascii c) eqn:Ec; [|exact Hx].
  destruct (nd <? max_digits)%nat; apply IH; [|exact Hx].
  apply push_digit_sign_clear; assumption.
Qed.

Lemma decimal_part_sign_clear (s : string) (x : float) (nd : nat) (k : Z) :
  sign_clear x = true ->
  sign_clear (fst (fst (fst (decimal_part s x nd k)))) = true.
Proof.
  revert x nd k. induction s as [|c s IH]; intros x nd k Hx; simpl; [exact Hx|].
  destruct (isdigit_ascii c) eqn:Ec; [|exact Hx].
  destruct (nd <? max_digits)%nat; apply IH; [|exact Hx].
  apply push_digit_sign_clear; assumption.
Qed.

Lemma e10_sign_clear (k : Z) : sign_clear (e10 k) = true.
Proof.
  unfold e10. apply of_Z_sign_clear.
  destruct (Z.le_gt_cases 0 k) as [H|H].
  - apply Z.pow_nonneg. lia.
  - rewrite Z.pow_neg_r by lia. lia.
Qed.

Lemma scale_sign_clear (x v : float) (e : Z) :
  sign_clear x = true -> scale x e = Some v -> sign_clear v = true.
Proof.
  unfold scale. intros Hx.
  destruct (308 <? e); [discriminate|].
  destruct (0 <? e).
  { intros H. inversion H. apply mul_sign_clear; [exact Hx|apply e10_sign_clear]. }
  destruct (e <? -308).
  { destruct (e <? -616); intros H; inversion H; [reflexivity|].
    apply div_sign_clear; [|apply e10_sign_clear].
    apply div_sign_clear; [exact Hx|apply e10_sign_clear]. }
  intros H. inversion H. apply div_sign_clear; [exact Hx|apply e10_sign_clear].
Qed.

(** The two sign tests of the parser, as tests on the first character. *)
Lemma sign_match {T : Type} (c : ascii) (r : string) (A B : string -> T) (C : T) :
  match String c r with
  | String "-" r' => A r'
  | String "+" r' => B r'
  | _ => C
  end
  = if Ascii.eqb c "-" then A r else if Ascii.eqb c "+" then B r else C.
Proof.
  destruct c as [[] [] [] [] [] [] [] []]; reflexivity.
Qed.

Lemma digit_not_space (c : ascii) :
  Re.is_digit c = true -> isspace_ascii c = false.
Proof.
  unfold Re.is_digit, isspace_ascii. intros H.
  apply andb_true_iff in H. destruct H as [H1 H2].
  apply Nat.leb_le in H1, H2.
  apply orb_false_iff. split; [apply Nat.eqb_neq; lia|].
  apply andb_false_iff. right. apply Nat.leb_gt. lia.
Qed.

Lemma digit_not_char (c x : ascii) :
  Re.is_digit c = true -> Re.is_digit x = false -> Ascii.eqb c x = false.
Proof.
  intros Hc Hx. apply Ascii.eqb_neq. intros E. subst. congruence.
Qed.

Lemma dot_match {T : Type} (c : ascii) (A C : T) :
  match c with
  | "."%char => A
  | _ => C
  end
  = if Ascii.eqb c "." then A else C.
Proof.
  destruct c as [[] [] [] [] [] [] [] []]; reflexivity.
Qed.

(** A text that starts with a digit parses to a value that is not
    negative. *)
Lemma to_double_digit_head (c : ascii) (m : string) (v : float) :
  Re.is_digit c = true -> to_double (String c m) = Some v ->
  sign_clear v = true.
Proof.
  intros Hc. unfold to_double.
  destruct (precise_xstrtod (String c m)) as [[v' r]|] eqn:E; [|discriminate].
  destruct r; [|discriminate]. intros H; inversion H; subst v'. clear H.
  unfold precise_xstrtod in E.
  cbn [skip_space] in E. rewrite (digit_not_space c Hc) in E.
  rewrite sign_match in E.
  rewrite !(digit_not_char c _ Hc) in E by reflexivity.
  pose proof (integer_part_sign_clear (String c m) zero 0 0 eq_refl) as Hi.
  destruct (integer_part (String c m) zero 0 0) as [[[n1 nd1] e1] p2].
  simpl in Hi.
  assert (Hfin : forall n nd e p,
             sign_clear n = true ->
             match nd with
             | O => None
             | S _ =>
                 let '(exponent0, p5) := exponent_part p e in
                 match scale n exponent0 with
                 | Some number0 =>
                     if is_inf number0 then None else Some (number0, skip_space p5)
                 | None => None
                 end
             end = Some (v, "") -> sign_clear v = true).
  { intros n nd e p Hn. destruct nd; [discriminate|].
    destruct (exponent_part p e) as [e' p'].
    destruct (scale n e') as [w|] eqn:Es; [|discriminate].
    destruct (is_inf w); [discriminate|].
    intros H. inversion H; subst. eapply scale_sign_clear; eauto. }
  destruct p2 as [|c2 r2].
  - exact (Hfin n1 nd1 e1 "" Hi E).
  - rewrite dot_match in E. destruct (Ascii.eqb c2 ".").
    + pose proof (decimal_part_sign_clear r2 n1 nd1 0 Hi) as Hd.
      destruct (decimal_part r2 n1 nd1 0) as [[[n2 nd2] k2] p3].
      simpl in Hd. exact (Hfin n2 nd2 (e1 - k2) p3 Hd E).
    + exact (Hfin n1 nd1 e1 (String c2 r2) Hi E).
Qed.


Lemma floatify_digit_head_sign (c : ascii) (m : string) (v : float) :
  Re.is_digit c = true -> floatify (String c m) = Some v -> sign_clear v = true.
Proof.
  intros Hc. unfold floatify.
  destruct (to_double (String c m)) as [w|] eqn:E.
  - intros H. inversion H; subst. eapply to_double_digit_head; eauto.
  - rewrite (NumFacts.lower_digit_head c m Hc).
    rewrite !(NumFacts.digit_head_neq c _ (lower m) _ Hc) by reflexivity.
    discriminate.
Qed.

End SignFacts.

(** ** Columns of the cleaned table *)

Module ColumnFacts.

Import Num SignFacts.

Lemma clean_rating_sign_clear (c : cell) : sign_clear (clean_rating c) = true.
Proof.
  unfold clean_rating, Pandas.to_numeric_coerce, Pandas.str_extract.
  destruct c as [s|]; [|reflexivity].
  destruct (Re.search Re.rating_pattern s) as [m|] eqn:Es; [|reflexivity].
  destruct (Num.floatify m) as [v|] eqn:Ev; [|reflexivity].
  destruct (ReFacts.search_first s m Es) as [pre [post [_ [Hm _]]]].
  rewrite ReFacts.match_here_decimal_at in Hm.
  destruct (ReFacts.decimal_at_head _ _ Hm) as [ch [m' [E Hd]]].
  subst m. eapply SignFacts.floatify_digit_head_sign; eauto.
Qed.

Lemma ltb_leb (x y : float) : ltb x y = true -> leb x y = true.
Proof.
  intros H. destruct (F64Facts.ltb_not_nan _ _ H) as [Hx Hy].
  apply F64Facts.leb_rank; auto. left. apply F64Facts.ltb_rank; auto.
Qed.

Lemma max_fold (xs : list float) (m0 : float) :
  let r := fold_left Pandas.max_step xs m0 in
  (is_nan m0 = false -> is_nan r = false /\ leb m0 r = true)
  /\ (forall x, In x xs -> is_nan x = false -> is_nan r = false /\ leb x r = true)
  /\ (r = m0 \/ In r xs).
Proof.
  revert m0. induction xs as [|x xs IH]; intros m0; simpl.
  - split; [|split; [tauto|auto]].
    intros H. split; [exact H|apply OrderFacts.leb_refl; exact H].
  - destruct (IH (Pandas.max_step m0 x)) as [I1 [I2 I3]].
    assert (S1 : is_nan m0 = false ->
                 is_nan (Pandas.max_step m0 x) = false /\ leb m0 (Pandas.max_step m0 x) = true).
    { intros H. unfold Pandas.max_step, Pandas.isna. rewrite H.
      destruct (is_nan x) eqn:Ex.
      - split; [exact H|apply OrderFacts.leb_refl; exact H].
      - destruct (ltb m0 x) eqn:El.
        + split; [exact Ex|apply ltb_leb; exact El].
        + split; [exact H|apply OrderFacts.leb_refl; exact H]. }
    assert (S2 : is_nan x = false ->
                 is_nan (Pandas.max_step m0 x) = false /\ leb x (Pandas.max_step m0 x) = true).
    { intros H. unfold Pandas.max_step, Pandas.isna. rewrite H.
      destruct (is_nan m0) eqn:Em.
      - split; [exact H|apply OrderFacts.leb_refl; exact H].
      - destruct (ltb m0 x) eqn:El.
        + split; [exact H|apply OrderFacts.leb_refl; exact H].
        + split; [exact Em|apply F64Facts.not_ltb_leb; assumption]. }
    split; [|split].
    + intros H. destruct (S1 H) as [A B]. destruct (I1 A) as [C D].
      split; [exact C|eapply F64Facts.leb_trans; eauto].
    + intros y [Hy|Hy] Hn.
      * subst y. destruct (S2 Hn) as [A B]. destruct (I1 A) as [C D].
        split; [exact C|eapply F64Facts.leb_trans; eauto].
      * apply I2; assumption.
    + destruct I3 as [I3|I3]; [|right; right; exact I3].
      rewrite I3. unfold Pandas.max_step.
      destruct (Pandas.isna x); [left; reflexivity|].
      destruct (Pandas.isna m0); [right; left; reflexivity|].
      destruct (ltb m0 x); [right; left; reflexivity|left; reflexivity].
Qed.

Lemma max_is_fold (xs : list float) : Pandas.max xs = fold_left Pandas.max_step xs nan.
Proof. reflexivity. Qed.

Lemma unique_In (cs : list cell) (c : cell) : In c (Pandas.unique cs) <-> In c cs.
Proof.
  induction cs as [|d cs IH]; simpl; [tauto|].
  rewrite filter_In, IH. split.
  - intros [H|[H _]]; auto.
  - intros [H|H]; [left; exact H|].
    destruct (Pandas.cell_eqb d c) eqn:E.
    + left. apply PandasFacts.cell_eqb_eq. exact E.
    + right. split; [exact H|reflexivity].
Qed.

Lemma unique_NoDup (cs : list cell) : NoDup (Pandas.unique cs).
Proof.
  induction cs as [|d cs IH]; simpl; constructor.
  - rewrite filter_In. intros [_ H].
    rewrite (proj2 (PandasFacts.cell_eqb_eq d d) eq_refl) in H. discriminate.
  - apply NoDup_filter. exact IH.
Qed.

Lemma seq_strongly_sorted (i n : nat) : StronglySorted lt (seq i n).
Proof.
  revert i. induction n as [|n IH]; intros i; simpl; constructor; [apply IH|].
  rewrite Forall_forall. intros j Hj. apply in_seq in Hj. lia.
Qed.

Lemma clean_rows_labels (i : nat) (file : list csv_row) :
  map label (map (fun p => clean_row (fst p) (snd p))
                 (combine (seq i (List.length file)) file))
  = seq i (List.length file).
Proof.
  revert i. induction file as [|r file IH]; intros i; simpl; [reflexivity|].
  rewrite IH. reflexivity.
Qed.

Lemma hotels_df_labels_sorted (file : list csv_row) :
  StronglySorted lt (map label (hotels_df file)).
Proof.
  unfold hotels_df, Pandas.read_csv, Pandas.dropna.
  rewrite CleanFacts.read_rows_clean.
  apply OrderFacts.map_filter_label. rewrite clean_rows_labels.
  apply seq_strongly_sorted.
Qed.

Lemma hotels_df_rating_sign (file : list csv_row) (h : hotel) :
  In h (hotels_df file) ->
  sign_clear (rating h) = true /\ leb zero (rating h) = true.
Proof.
  intros Hh.
  apply CleanFacts.hotels_df_In in Hh. destruct Hh as [r [_ [E [_ Hr]]]].
  assert (Hs : sign_clear (rating h) = true).
  { rewrite E. simpl. apply clean_rating_sign_clear. }
  split; [exact Hs|]. apply OrderFacts.zero_leb_sign_clear; assumption.
Qed.

Lemma leb_or_zero (x m : float) : leb x m = true -> leb x (or_zero m) = true.
Proof.
  destruct m; simpl; auto.
Qed.

End ColumnFacts.

(** X4. No rating of the cleaned table is negative: the text the
    pattern extracts carries no sign, so every kept rating has a clear
    sign bit and compares at or above zero. *)
Theorem cleaned_ratings_not_negative (file : list csv_row) :
  Forall (fun r => sign_clear (rating r) = true /\ leb zero (rating r) = true)
         (hotels_df file).
Proof.
  rewrite Forall_forall. intros h Hh. apply (ColumnFacts.hotels_df_rating_sign file h Hh).
Qed.

(** X5. [column.max()], which sets the upper end of the price slider,
    is at least every value of the column that is not missing, and is
    itself a value of the column unless it is the missing marker. *)
Theorem column_max_greatest (xs : list float) :
  Forall (fun x => is_nan x || leb x (Pandas.max xs) = true) xs
  /\ (Pandas.max xs = nan \/ In (Pandas.max xs) xs).
Proof.
  rewrite ColumnFacts.max_is_fold. destruct (ColumnFacts.max_fold xs nan) as [_ [H2 H3]]. split.
  - rewrite Forall_forall. intros x Hx. destruct (is_nan x) eqn:E; [reflexivity|].
    simpl. apply (H2 x Hx E).
  - exact H3.
Qed.

(** X6. The locations selected by default are the locations of the
    table, each listed once. *)
Theorem default_locations (df : list hotel) :
  NoDup (selected_locations (default_controls df))
  /\ incl (selected_locations (default_controls df)) (map location df)
  /\ incl (map location df) (selected_locations (default_controls df)).
Proof.
  simpl. split; [apply ColumnFacts.unique_NoDup|].
  split; intros c Hc; apply ColumnFacts.unique_In; exact Hc.
Qed.

(** X7. When the price slider can be built as written (the highest
    price is a finite number above zero), the default widget values let
    through exactly the rows of a table without missing price whose
    price is at least zero and whose rating is between zero and ten: the
    default upper price bound and the default location list exclude
    nothing. *)
Theorem default_view_rows (df : list hotel) (c : controls) :
  sidebar_defaults df = Some c ->
  Forall (fun r => is_nan (price r) = false) df ->
  filtered_df c df
  = filter (fun r => default_view r && leb zero (rating r)) df.
Proof.
  unfold sidebar_defaults. intros Hc Hn.
  destruct (is_finite (Pandas.max (map price df))
            && ltb zero (Pandas.max (map price df))); [|discriminate].
  inversion Hc; subst c. clear Hc.
  rewrite FilterFacts.filtered_df_filter.
  apply filter_ext_in. intros r Hr.
  rewrite Forall_forall in Hn.
  assert (Hm : leb (price r) (or_zero (Pandas.max (map price df))) = true).
  { apply ColumnFacts.leb_or_zero. rewrite ColumnFacts.max_is_fold.
    destruct (ColumnFacts.max_fold (map price df) nan) as [_ [H2 _]].
    apply (H2 (price r)); [apply in_map; exact Hr|apply Hn; exact Hr]. }
  assert (Hl : Pandas.isin (Pandas.unique (map location df)) (location r) = true).
  { apply PandasFacts.isin_In, ColumnFacts.unique_In, in_map. exact Hr. }
  unfold keep, default_view, default_controls, geb.
  cbn [min_price max_price min_rating max_rating selected_locations].
  change (SFleb zero (price r)) with (leb zero (price r)).
  change (SFleb zero (rating r)) with (leb zero (rating r)).
  rewrite Hm, Hl.
  destruct (leb zero (price r)), (leb zero (rating r)),
    (leb (rating r) (of_Z 10)); reflexivity.
Qed.

Lemma default_view_rows_witness :
  sidebar_defaults (hotels_df scenario_file) = Some scenario_controls
  /\ map label (filtered_df scenario_controls (hotels_df scenario_file))
     = [0%nat; 1%nat]
  /\ filtered_df scenario_controls (hotels_df scenario_file)
     = filter (fun r => default_view r && leb zero (rating r))
              (hotels_df scenario_file).
Proof.
  assert (H : sidebar_defaults (hotels_df scenario_file) = Some scenario_controls)
    by (vm_compute; reflexivity).
  split; [exact H|]. split; [vm_compute; reflexivity|].
  apply (default_view_rows (hotels_df scenario_file) scenario_controls H).
  vm_compute. repeat constructor.
Defined.

(** ** Texts of the price column *)

Module TextFacts.

Import Str Num.

Local Arguments Ascii.eqb : simpl never.

Lemma lacks_app (x : ascii) (a b : string) :
  lacks x (a ++ b) = lacks x a && lacks x b.
Proof.
  induction a as [|c a IH]; simpl; [reflexivity|].
  rewrite IH, andb_assoc. reflexivity.
Qed.

Lemma without_app (x : ascii) (a b : string) :
  without x (a ++ b) = without x a ++ without x b.
Proof.
  induction a as [|c a IH]; simpl; [reflexivity|].
  destruct (Ascii.eqb c x); simpl; rewrite IH; reflexivity.
Qed.

Lemma without_lacks (x : ascii) (s : string) : lacks x (without x s) = true.
Proof.
  induction s as [|c s IH]; simpl; [reflexivity|].
  destruct (Ascii.eqb c x) eqn:E; simpl; [exact IH|].
  rewrite E, IH. reflexivity.
Qed.

Lemma lstrip_lacks (x : ascii) (s : string) :
  lacks x s = true -> lacks x (lstrip s) = true.
Proof.
  induction s as [|c s IH]; simpl; intros H; [reflexivity|].
  destruct (py_isspace c); [|exact H].
  apply andb_true_iff in H. apply IH, H.
Qed.

Lemma rstrip_lacks (x : ascii) (s : string) :
  lacks x s = true -> lacks x (rstrip s) = true.
Proof.
  induction s as [|c s IH]; simpl; intros H; [reflexivity|].
  apply andb_true_iff in H. destruct H as [H1 H2].
  destruct (is_empty (rstrip s) && py_isspace c); [reflexivity|].
  simpl. rewrite H1, (IH H2). reflexivity.
Qed.

Lemma rstrip_idempotent (s : string) : rstrip (rstrip s) = rstrip s.
Proof.
  induction s as [|c s IH]; simpl; [reflexivity|].
  destruct (is_empty (rstrip s) && py_isspace c) eqn:E; [reflexivity|].
  simpl. rewrite IH, E. reflexivity.
Qed.

Lemma lstrip_fixed (s : string) :
  match s with String c _ => py_isspace c = false | EmptyString => True end ->
  lstrip s = s.
Proof. destruct s as [|c s]; simpl; [reflexivity|]. intros H. rewrite H. reflexivity. Qed.

Lemma lstrip_head (s : string) :
  match lstrip s with String c _ => py_isspace c = false | EmptyString => True end.
Proof.
  induction s as [|c s IH]; simpl; [exact I|].
  destruct (py_isspace c) eqn:E; [exact IH|exact E].
Qed.

Lemma rstrip_head (s : string) :
  match s with String c _ => py_isspace c = false | EmptyString => True end ->
  match rstrip s with String c _ => py_isspace c = false | EmptyString => True end.
Proof.
  destruct s as [|c s]; simpl; [auto|]. intros H. rewrite H, andb_false_r. exact H.
Qed.

Lemma strip_idempotent (s : string) : strip (strip s) = strip s.
Proof.
  unfold strip.
  rewrite (lstrip_fixed (rstrip (lstrip s))).
  - apply rstrip_idempotent.
  - apply rstrip_head, lstrip_head.
Qed.

Lemma clean_price_suffix (body : string) :
  lacks "E" body = true ->
  clean_price (Some (body ++ "EGP"))
  = Pandas.to_numeric_coerce (Some (strip (without "," body))).
Proof.
  intros H. unfold clean_price, Pandas.str_map. simpl option_map.
  rewrite (StrFacts.replace_EGP_suffix body H), StrFacts.replace_comma.
  reflexivity.
Qed.

(** Removing a text leaves only characters that were there. *)
Lemma replace_from_no_digit (old : string) (k : nat) (s : string) :
  Re.no_digit s = true -> Re.no_digit (replace_from old "" k s) = true.
Proof.
  revert k. induction s as [|c s IH]; intros k H; simpl; [reflexivity|].
  simpl in H. apply andb_true_iff in H. destruct H as [H1 H2].
  destruct k; [|apply IH; exact H2].
  destruct (starts_with old (String c s)); simpl; [apply IH; exact H2|].
  rewrite H1, (IH 0%nat H2). reflexivity.
Qed.

Lemma lstrip_no_digit (s : string) :
  Re.no_digit s = true -> Re.no_digit (lstrip s) = true.
Proof.
  induction s as [|c s IH]; simpl; intros H; [reflexivity|].
  destruct (py_isspace c); [|exact H].
  apply andb_true_iff in H. apply IH, H.
Qed.

Lemma rstrip_no_digit (s : string) :
  Re.no_digit s = true -> Re.no_digit (rstrip s) = true.
Proof.
  induction s as [|c s IH]; simpl; intros H; [reflexivity|].
  apply andb_true_iff in H. destruct H as [H1 H2].
  destruct (is_empty (rstrip s) && py_isspace c); [reflexivity|].
  simpl. rewrite H1, (IH H2). reflexivity.
Qed.

Lemma price_text_no_digit (s : string) :
  Re.no_digit s = true -> Re.no_digit (price_text s) = true.
Proof.
  intros H. unfold price_text, strip, replace.
  apply rstrip_no_digit, lstrip_no_digit.
  apply replace_from_no_digit, replace_from_no_digit. exact H.
Qed.

Lemma skip_space_no_digit (s : string) :
  Re.no_digit s = true -> Re.no_digit (skip_space s) = true.
Proof.
  induction s as [|c s IH]; simpl; intros H; [reflexivity|].
  destruct (isspace_ascii c); [|exact H].
  apply andb_true_iff in H. apply IH, H.
Qed.

Lemma integer_part_no_digit (s : string) (x : float) (nd : nat) (e : Z) :
  Re.starts_with_digit s = false -> integer_part s x nd e = (x, nd, e, s).
Proof.
  destruct s as [|c s]; simpl; [reflexivity|].
  unfold isdigit_ascii. intros H. rewrite H. reflexivity.
Qed.

Lemma decimal_part_no_digit (s : string) (x : float) (nd : nat) (k : Z) :
  Re.starts_with_digit s = false -> decimal_part s x nd k = (x, nd, k, s).
Proof.
  destruct s as [|c s]; simpl; [reflexivity|].
  unfold isdigit_ascii. intros H. rewrite H. reflexivity.
Qed.

Lemma no_digit_head (s : string) :
  Re.no_digit s = true -> Re.starts_with_digit s = false.
Proof.
  destruct s as [|c s]; simpl; [reflexivity|].
  intros H. apply andb_true_iff in H. apply negb_true_iff, H.
Qed.

Lemma no_digit_tail (c : ascii) (s : string) :
  Re.no_digit (String c s) = true -> Re.no_digit s = true.
Proof. simpl. intros H. apply andb_true_iff in H. apply H. Qed.

(** Without a digit there is no number to read. *)
Lemma no_digit_to_double (s : string) :
  Re.no_digit s = true -> to_double s = None.
Proof.
  intros H. unfold to_double, precise_xstrtod.
  pose proof (skip_space_no_digit s H) as H0.
  destruct (skip_space s) as [|c p] eqn:Es.
  - reflexivity.
  - rewrite SignFacts.sign_match.
    assert (Hp : Re.no_digit p = true) by (eapply no_digit_tail; eauto).
    assert (Hfin : forall (neg : bool) (p1 : string),
               Re.no_digit p1 = true ->
               match
                 (let '(number, num_digits, exponent, p2) := integer_part p1 zero 0 0 in
                  let '(number0, num_digits0, exponent0, p3) :=
                    match p2 with
                    | String "." r =>
                        let '(number', nd', num_decimals, r') :=
                          decimal_part r number num_digits 0 in
                        (number', nd', exponent - num_decimals, r')
                    | _ => (number, num_digits, exponent, p2)
                    end in
                  match num_digits0 with
                  | O => None
                  | S _ =>
                      let number1 := if neg then opp number0 else number0 in
                      let '(exponent1, p4) := exponent_part p3 exponent0 in
                      match scale number1 exponent1 with
                      | Some number2 =>
                          if is_inf number2 then None
                          else Some (number2, skip_space p4)
                      | None => None
                      end
                  end)
               with
               | Some (v, "") => Some v
               | _ => None
               end = None).
    { intros neg p1 H1.
      rewrite (integer_part_no_digit p1 zero 0 0 (no_digit_head p1 H1)).
      destruct p1 as [|c1 r1]; [reflexivity|].
      rewrite SignFacts.dot_match.
      destruct (Ascii.eqb c1 "."); [|reflexivity].
      rewrite (decimal_part_no_digit r1 zero 0 0
                 (no_digit_head r1 (no_digit_tail c1 r1 H1))).
      reflexivity. }
    destruct (Ascii.eqb c "-"); [exact (Hfin true p Hp)|].
    destruct (Ascii.eqb c "+"); [exact (Hfin false p Hp)|].
    exact (Hfin false (String c p) H0).
Qed.

Lemma lower_no_digit (s : string) : Re.no_digit (lower s) = Re.no_digit s.
Proof.
  induction s as [|c s IH]; [reflexivity|].
  cbn [lower Re.no_digit]. rewrite IH. f_equal. f_equal.
  destruct c as [[] [] [] [] [] [] [] []]; reflexivity.
Qed.

Lemma infinity_spelling_no_digit (s : string) :
  infinity_spelling s = true -> Re.no_digit s = true.
Proof.
  unfold infinity_spelling. intros H. rewrite <- lower_no_digit.
  repeat (apply orb_true_iff in H; destruct H as [H|H]);
    apply String.eqb_eq in H; rewrite H; reflexivity.
Qed.

(** What [floatify] returns for a text without a digit. *)
Lemma floatify_no_digit (s : string) :
  Re.no_digit s = true ->
  floatify s = if infinity_spelling s
               then Some (if String.eqb (lower s) "-inf"
                             || String.eqb (lower s) "-infinity"
                          then opp inf else inf)
               else None.
Proof.
  intros H. unfold floatify, infinity_spelling.
  rewrite (no_digit_to_double s H).
  destruct (String.eqb_spec (lower s) "inf") as [E|_]; [rewrite E; reflexivity|].
  destruct (String.eqb_spec (lower s) "+inf") as [E|_]; [rewrite E; reflexivity|].
  destruct (String.eqb_spec (lower s) "infinity") as [E|_]; [rewrite E; reflexivity|].
  destruct (String.eqb_spec (lower s) "+infinity") as [E|_]; [rewrite E; reflexivity|].
  simpl.
  destruct (String.eqb (lower s) "-inf"), (String.eqb (lower s) "-infinity");
    reflexivity.
Qed.

End TextFacts.

(** X8. The text handed to [to_numeric] for a price holds no comma and
    has no white space at either end (stripping it again changes
    nothing); the cleaned price is the number read from that text. *)
Theorem price_text_trimmed (s : string) :
  Str.lacks "," (price_text s) = true
  /\ Str.strip (price_text s) = price_text s
  /\ clean_price (Some s) = Pandas.to_numeric_coerce (Some (price_text s)).
Proof.
  unfold price_text. split; [|split; [apply TextFacts.strip_idempotent|reflexivity]].
  rewrite StrFacts.replace_comma. unfold Str.strip.
  apply TextFacts.rstrip_lacks, TextFacts.lstrip_lacks, TextFacts.without_lacks.
Qed.

(** X9. A comma changes nothing to a price: for a text without the
    letter E before the suffix EGP, the cleaned price is the same with
    and without a comma at any place. *)
Theorem commas_do_not_matter (a b : string) :
  Str.lacks "E" a = true -> Str.lacks "E" b = true ->
  clean_price (Some (a ++ "," ++ b ++ "EGP")) = clean_price (Some (a ++ b ++ "EGP")).
Proof.
  intros Ha Hb.
  assert (E1 : a ++ "," ++ b ++ "EGP" = (a ++ "," ++ b) ++ "EGP").
  { rewrite !StrFacts.app_assoc. reflexivity. }
  assert (E2 : a ++ b ++ "EGP" = (a ++ b) ++ "EGP").
  { rewrite StrFacts.app_assoc. reflexivity. }
  rewrite E1, E2.
  assert (La : Str.lacks "E" (a ++ "," ++ b) = true).
  { rewrite !TextFacts.lacks_app, Ha, Hb. reflexivity. }
  assert (Lb : Str.lacks "E" (a ++ b) = true).
  { rewrite TextFacts.lacks_app, Ha, Hb. reflexivity. }
  rewrite (TextFacts.clean_price_suffix _ La), (TextFacts.clean_price_suffix _ Lb).
  rewrite !TextFacts.without_app. reflexivity.
Qed.

Lemma commas_do_not_matter_witness :
  clean_price (Some ("1" ++ "," ++ "234 " ++ "EGP"))
  = clean_price (Some ("1" ++ "234 " ++ "EGP")).
Proof. apply (commas_do_not_matter "1" "234 "); reflexivity. Defined.

(** X10. A price whose text, once EGP and the commas are removed and
    the white space trimmed, spells infinity ([inf] or [infinity], with
    an optional sign, in any case) cleans to an infinite price, which
    [dropna] does not count as missing. *)
Theorem infinite_price_spelled (s : string) :
  Num.infinity_spelling (price_text s) = true ->
  is_inf (clean_price (Some s)) = true
  /\ is_nan (clean_price (Some s)) = false.
Proof.
  intros H.
  change (clean_price (Some s))
    with (Pandas.to_numeric_coerce (Some (price_text s))).
  unfold Pandas.to_numeric_coerce.
  rewrite (TextFacts.floatify_no_digit _
             (TextFacts.infinity_spelling_no_digit _ H)), H.
  destruct (_ || _); split; reflexivity.
Qed.

Lemma infinite_price_spelled_witness :
  Num.infinity_spelling (price_text "-Infinity EGP") = true
  /\ is_inf (clean_price (Some "-Infinity EGP")) = true.
Proof.
  assert (H : Num.infinity_spelling (price_text "-Infinity EGP") = true)
    by (vm_compute; reflexivity).
  split; [exact H|]. apply (infinite_price_spelled "-Infinity EGP" H).
Defined.

(** X11. A price text without any digit never cleans to a finite
    price: it becomes the missing marker or an infinity. *)
Theorem price_without_digit_not_finite (s : string) :
  Re.no_digit s = true -> is_finite (clean_price (Some s)) = false.
Proof.
  intros H.
  change (clean_price (Some s)) with (Pandas.to_numeric_coerce (Some (price_text s))).
  unfold Pandas.to_numeric_coerce.
  rewrite (TextFacts.floatify_no_digit _ (TextFacts.price_text_no_digit s H)).
  destruct (Num.infinity_spelling (price_text s)); [|reflexivity].
  destruct (_ || _); reflexivity.
Qed.

Lemma price_without_digit_not_finite_witness :
  Re.no_digit "N/A" = true /\ is_finite (clean_price (Some "N/A")) = false.
Proof.
  split; [reflexivity|].
  apply (price_without_digit_not_finite "N/A"). reflexivity.
Defined.

(** ** Extraction, tables and groups *)

Module GreedyFacts.

Import Re.

Lemma span_digits_rest (s d r : string) :
  span_digits s = (d, r) -> starts_with_digit r = false.
Proof.
  revert d r. induction s as [|c s IH]; simpl; intros d r H.
  - inversion H. reflexivity.
  - destruct (is_digit c) eqn:Ec.
    + destruct (span_digits s) as [d' r'] eqn:Es. inversion H; subst.
      apply (IH d' r eq_refl).
    + inversion H; subst. simpl. exact Ec.
Qed.

Lemma decimal_at_rest (s m : string) :
  decimal_at s = Some m ->
  exists post, s = m ++ post /\ starts_with_digit post = false.
Proof.
  unfold decimal_at. intros H.
  destruct (span_digits s) as [d1 r] eqn:E1.
  destruct d1 as [|c1 d1]; [discriminate|].
  destruct r as [|c r']; [discriminate|].
  destruct (is_dot c) eqn:Ed; [|discriminate].
  destruct (span_digits r') as [d2 r''] eqn:E2.
  destruct d2 as [|c2 d2]; [discriminate|].
  inversion H; subst m.
  pose proof (span_digits_rest _ _ _ E2) as Hr.
  apply ReFacts.span_digits_spec in E1. apply ReFacts.span_digits_spec in E2.
  destruct E1 as [E1 _], E2 as [E2 _].
  exists r''. split; [|exact Hr].
  rewrite E1, E2. simpl. f_equal.
  rewrite StrFacts.app_assoc. reflexivity.
Qed.

Lemma search_rest (s m : string) :
  search rating_pattern s = Some m ->
  exists pre post, s = pre ++ m ++ post /\ starts_with_digit post = false.
Proof.
  induction s as [|c s IH]; rewrite ReFacts.search_unfold.
  - simpl. discriminate.
  - destruct (match_here rating_pattern (String c s)) as [m0|] eqn:Em.
    + intros H. inversion H; subst m0.
      rewrite ReFacts.match_here_decimal_at in Em.
      destruct (decimal_at_rest _ _ Em) as [post [E Hp]].
      exists "", post. split; [exact E|exact Hp].
    + intros H. destruct (IH H) as [pre [post [E Hp]]].
      exists (String c pre), post. simpl. rewrite <- E. auto.
Qed.

End GreedyFacts.

(** X12. The extracted rating is not cut short: the text splits around
    the match and what follows the match does not start with a digit. *)
Theorem extraction_is_greedy (s m : string) :
  Re.search Re.rating_pattern s = Some m ->
  exists pre post, s = pre ++ m ++ post /\ Re.starts_with_digit post = false.
Proof. apply GreedyFacts.search_rest. Qed.

Lemma extraction_is_greedy_witness :
  Re.search Re.rating_pattern "Rated 8.55 of 10" = Some "8.55"
  /\ exists pre post, "Rated 8.55 of 10" = pre ++ "8.55" ++ post
                      /\ Re.starts_with_digit post = false.
Proof.
  split; [reflexivity|].
  apply (extraction_is_greedy "Rated 8.55 of 10" "8.55"). reflexivity.
Defined.

Module TableFacts.

Lemma hotels_df_row (file : list csv_row) (h : hotel) :
  In h (hotels_df file) ->
  option_map (clean_row (label h)) (nth_error file (label h)) = Some h.
Proof.
  intros H. apply CleanFacts.hotels_df_In in H.
  destruct H as [r [Hn [E _]]]. rewrite Hn. simpl. congruence.
Qed.

Lemma hotels_df_length (file : list csv_row) :
  (List.length (hotels_df file) <= List.length file)%nat.
Proof.
  unfold hotels_df, Pandas.dropna, Pandas.read_csv.
  eapply Nat.le_trans; [apply PandasFacts.filter_length_le|].
  rewrite !length_map. generalize 0%nat.
  induction file as [|r file IH]; intros i; simpl; [lia|].
  specialize (IH (S i)). lia.
Qed.

(** The first rows of a frame sorted by descending rating. *)
Lemma head_sorted (n : nat) (df : list hotel) :
  Pandas.no_nan_rating df ->
  let top := Pandas.head n (Pandas.sort_values_rating_desc df) in
  (exists rest,
      Permutation (top ++ rest) df
      /\ Forall (fun a => Forall (fun b => Pandas.rating_ge a b) rest) top)
  /\ List.length top = Nat.min n (List.length df)
  /\ StronglySorted Pandas.rating_ge top.
Proof.
  intros Hn top.
  pose proof (PandasFacts.sort_values_sorted df Hn) as Hs.
  pose proof (PandasFacts.sort_values_perm df) as Hp.
  unfold top, Pandas.head. split; [|split].
  - exists (skipn n (Pandas.sort_values_rating_desc df)).
    rewrite firstn_skipn. split; [exact Hp|].
    apply PandasFacts.head_dominates. exact Hs.
  - rewrite length_firstn, (Permutation_length Hp). reflexivity.
  - clear Hp Hn top. revert n.
    induction Hs as [|a l Hs IH Ha]; intros n.
    + destruct n; constructor.
    + destruct n as [|n]; simpl; constructor; [apply IH|].
      rewrite Forall_forall in *. intros b Hb. apply Ha.
      rewrite <- (firstn_skipn n l). apply in_or_app. left. exact Hb.
Qed.

End TableFacts.

(** X14. Cleaning and filtering keep the rows in file order and keep
    their index labels: the labels of the cleaned table, and of any
    filtered view of it, increase strictly (so no row appears twice),
    each row is the cleaned form of the file line its label names, and
    the cleaned table has at most as many rows as the file has lines. *)
Theorem cleaned_rows_in_file_order (file : list csv_row) (c : controls) :
  StronglySorted lt (map label (hotels_df file))
  /\ StronglySorted lt (map label (filtered_df c (hotels_df file)))
  /\ Forall (fun h => option_map (clean_row (label h))
                                 (nth_error file (label h)) = Some h)
            (hotels_df file)
  /\ (List.length (hotels_df file) <= List.length file)%nat.
Proof.
  split; [apply ColumnFacts.hotels_df_labels_sorted|].
  split.
  { rewrite FilterFacts.filtered_df_filter.
    apply OrderFacts.map_filter_label, ColumnFacts.hotels_df_labels_sorted. }
  split; [|apply TableFacts.hotels_df_length].
  rewrite Forall_forall. apply TableFacts.hotels_df_row.
Qed.

(** X15. The first chart shows ten rows of the filtered table, or all
    of them when there are fewer, in descending order of rating, each
    rated at least as high as every row left out, one bar per row with
    the rating as height and text. *)
Theorem top_rated_chart (c : controls) (base : list hotel) :
  let fdf := filtered_df c base in
  let top := top_rated fdf in
  (exists rest,
      Permutation (top ++ rest) fdf
      /\ Forall (fun a => Forall (fun b => Pandas.rating_ge a b) rest) top)
  /\ List.length top = Nat.min 10 (List.length fdf)
  /\ StronglySorted Pandas.rating_ge top
  /\ Plot.points (fig_top_rated fdf)
     = map (fun r => Plot.mk_point (Plot.Text (name r))
                       (Some (Plot.Number (rating r)))
                       (Some (Plot.Number (rating r))) None None None) top.
Proof.
  intros fdf top.
  destruct (TableFacts.head_sorted 10 fdf (FilterFacts.filtered_no_nan_rating c base))
    as [H1 [H2 H3]].
  repeat split; assumption || reflexivity.
Qed.

Module GroupFacts.

Import Pandas.






Lemma insert_key_length (k0 : string) (ks : list string) :
  (List.length (insert_key k0 ks) <= S (List.length ks))%nat.
Proof.
  induction ks as [|k' ks IH]; simpl; [lia|].
  destruct (String.compare k0 k'); simpl; lia.
Qed.



Lemma group_keys_length (cs : list cell) :
  (List.length (group_keys cs) <= List.length cs)%nat.
Proof.
  induction cs as [|[k|] cs IH]; simpl; [lia| |lia].
  pose proof (insert_key_length k (group_keys cs)). lia.
Qed.


End GroupFacts.


(** X17. Whatever category order a figure has, the axis shows the
    categories of its data, each once: the layout moves bars but neither
    drops nor repeats one. *)
Theorem layout_keeps_bars (f : Plot.figure) :
  Permutation (Plot.displayed_categories f) (Plot.trace_categories f)
  /\ NoDup (Plot.displayed_categories f).
Proof.
  assert (Hp : Permutation (Plot.displayed_categories f) (Plot.trace_categories f)).
  { unfold Plot.displayed_categories.
    destruct (Plot.xaxis_categoryorder f); [apply Permutation_refl|].
    apply PandasFacts.sort_by_perm. }
  split; [exact Hp|].
  eapply Permutation_NoDup; [apply Permutation_sym; exact Hp|].
  apply ColumnFacts.unique_NoDup.
Qed.

(** X18. The histogram and the last bar chart have one data point per
    row of the filtered table, and so has the scatter plot when it is
    built (it is not when a price is negative); the first chart has ten
    points or all of them, the budget chart at most that many; the
    average chart and the two line charts have one point per distinct
    hotel name, at most one per row; and the filtered table is no longer
    than the base table. *)
Theorem chart_sizes (c : controls) (base : list hotel) :
  let fdf := filtered_df c base in
  let n := List.length fdf in
  let names := List.length (Pandas.group_keys (map name fdf)) in
  List.length (Plot.points (fig_price_dist fdf)) = n
  /\ List.length (Plot.points (fig_price fdf)) = n
  /\ option_map (fun f => List.length (Plot.points f)) (fig_rating_vs_price fdf)
     = (if existsb (fun r => ltb (price r) zero) fdf then None else Some n)
  /\ List.length (Plot.points (fig_top_rated fdf)) = Nat.min 10 n
  /\ (List.length (Plot.points (fig_budget_rated fdf)) <= Nat.min 10 n)%nat
  /\ List.length (Plot.points (fig_avg_price fdf)) = names
  /\ List.length (Plot.points (fig1 fdf)) = names
  /\ List.length (Plot.points (fig2 fdf)) = names
  /\ (names <= n)%nat
  /\ (n <= List.length base)%nat.
Proof.
  intros fdf n names.
  assert (Hs : forall df, List.length (Pandas.sort_values_rating_desc df)
                          = List.length df).
  { intros df. apply Permutation_length, PandasFacts.sort_values_perm. }
  repeat split.
  - apply length_map.
  - unfold fig_price, fig_price_layout, fig_price_data. cbn [Plot.points
      Plot.set_title_x Plot.set_axis_titles Plot.set_tickangle
      Plot.set_categoryorder Plot.bar_name_rating].
    rewrite length_map. apply Hs.
  - unfold fig_rating_vs_price, Plot.scatter_rating_price.
    destruct (existsb (fun r => ltb (price r) zero) fdf); [reflexivity|].
    simpl. rewrite length_map. reflexivity.
  - unfold fig_top_rated. cbn [Plot.points Plot.set_tickangle Plot.bar_name_rating].
    rewrite length_map. unfold top_rated, Pandas.head.
    rewrite length_firstn, Hs. reflexivity.
  - unfold fig_budget_rated.
    cbn [Plot.points Plot.set_tickangle Plot.bar_name_rating].
    rewrite length_map. unfold top_budget_rated, Pandas.head.
    rewrite length_firstn, Hs, FilterFacts.budget_hotels_filter.
    pose proof (PandasFacts.filter_length_le
                  (fun r => ltb (price r) (Pandas.mean (map price fdf))) fdf).
    unfold n. apply Nat.min_le_compat_l. exact H.
  - unfold fig_avg_price.
    cbn [Plot.points Plot.set_tickangle Plot.bar_name_price].
    rewrite length_map.
    unfold avg_price_by_hotel, Pandas.groupby_name_mean_price.
    rewrite length_map. reflexivity.
  - unfold fig1, Plot.lineplot_name. cbn [Plot.points]. apply length_map.
  - unfold fig2, Plot.lineplot_name. cbn [Plot.points]. apply length_map.
  - unfold names, n.
    eapply Nat.le_trans; [apply GroupFacts.group_keys_length|].
    rewrite length_map. apply Nat.le_refl.
  - unfold n, fdf. rewrite FilterFacts.filtered_df_filter.
    apply PandasFacts.filter_length_le.
Qed.
